(** * homework_bot: the polling notifier of [homework.py]

    A shallow embedding of [src/homework.py] and [src/exceptions.py]:
    the Python objects the bot handles, the five functions
    [check_tokens], [send_message], [get_api_answer], [check_response],
    [parse_status], and the body of the [while True] loop of [main].

    Calls into the outside world are inputs of the model:
    - [requests.get] either raises [requests.RequestException] or gives a
      response with a status code; on its body [response.json()] returns
      a value, raises [json.JSONDecodeError], or raises another exception
      ([get_outcome]);
    - [telebot.TeleBot(token=...)] returns the bot or raises;
    - [bot.send_message] delivers or raises; [send_message] catches the
      exception, so the outcome is a boolean recorded in the trace;
    - [os.getenv] gives a string or [None] ([config]).
    Calls to [logging] change neither a value nor the control flow and are
    left out; [time.sleep] likewise. *)

From Stdlib Require Import String Ascii List ZArith Bool Lia DecimalString.
Import ListNotations.
Open Scope string_scope.
Open Scope Z_scope.
#[local] Set Warnings "-register-all".

(** ** Python objects *)

(** What [json] decoding yields.  A float is carried by its [repr] text:
    the program never computes with payload numbers, it only prints and
    stores them.  A dict keeps its items in insertion order; lookup takes
    the first item with the key. *)
Inductive value : Type :=
| VNone
| VBool (b : bool)
| VInt (z : Z)
| VFloat (r : string)
| VStr (s : string)
| VList (l : list value)
| VDict (d : list (string * value)).

(** The value bound to the name [response] in [get_api_answer] and [main]:
    the decoded body, or still the [requests.Response] object. *)
Inductive pyobj : Type :=
| Decoded (v : value)
| ResponseObject (status_code : Z).

(** The exception classes of [exceptions.py], and the built-in ones the
    interpreter raises on the operations used here.  Each carries its
    message; [KeyError] carries the key.  All of them derive from
    [Exception], so the [except Exception] of [main] catches each.
    [ValueError] and [RecursionError] are what [response.json()] and the
    constructor of the bot can raise.  The texts of the built-in errors
    are those of CPython 3.12; no property below depends on their
    wording. *)
Inductive exn : Type :=
| MissingTokensError (message : string)
| APIRequestError (message : string)
| InvalidAPIResponseError (message : string)
| UnknownHomeworkStatusError (message : string)
| TypeError (message : string)
| KeyError (key : value)
| AttributeError (message : string)
| ValueError (message : string)
| RecursionError (message : string).

Inductive result (A : Type) : Type :=
| Ok (a : A)
| Raise (e : exn).
Arguments Ok {A} a.
Arguments Raise {A} e.

Definition bind {A B : Type} (m : result A) (f : A -> result B) : result B :=
  match m with
  | Ok a => f a
  | Raise e => Raise e
  end.

Notation "x <- m ;; k" := (bind m (fun x => k))
  (at level 61, m at next level, right associativity).

(** ** Built-ins *)

Definition dquote : string := String (ascii_of_nat 34) EmptyString.

(** [sep.join(items)] *)
Fixpoint join (sep : string) (items : list string) : string :=
  match items with
  | [] => EmptyString
  | [x] => x
  | x :: rest => x ++ sep ++ join sep rest
  end.

Definition int_str (z : Z) : string := NilZero.string_of_int (Z.to_int z).

Definition type_name (v : value) : string :=
  match v with
  | VNone => "NoneType"
  | VBool _ => "bool"
  | VInt _ => "int"
  | VFloat _ => "float"
  | VStr _ => "str"
  | VList _ => "list"
  | VDict _ => "dict"
  end.

(** [repr] of a [str] object quotes and escapes according to the
    interpreter's Unicode tables; it is an interface of the model. *)
Class Interpreter : Type := str_repr : string -> string.

Section Builtins.
Context {py : Interpreter}.

Fixpoint repr (v : value) : string :=
  match v with
  | VNone => "None"
  | VBool true => "True"
  | VBool false => "False"
  | VInt z => int_str z
  | VFloat r => r
  | VStr s => str_repr s
  | VList l => "[" ++ join ", " (map repr l) ++ "]"
  | VDict d =>
      "{" ++ join ", "
               (map (fun kv => let '(k, x) := kv in
                               str_repr k ++ ": " ++ repr x) d) ++ "}"
  end.

(** [str(v)], which is what an f-string field [{v}] inserts. *)
Definition str (v : value) : string :=
  match v with
  | VStr s => s
  | _ => repr v
  end.

(** [str(error)] for the exceptions above. *)
Definition exn_str (e : exn) : string :=
  match e with
  | MissingTokensError m | APIRequestError m | InvalidAPIResponseError m
  | UnknownHomeworkStatusError m | TypeError m | AttributeError m
  | ValueError m | RecursionError m => m
  | KeyError k => repr k
  end.
End Builtins.

(** [key in d] and [d.get(key, default)] on a dict. *)
Fixpoint dict_lookup (d : list (string * value)) (key : string) : option value :=
  match d with
  | [] => None
  | (k, v) :: rest => if String.eqb k key then Some v else dict_lookup rest key
  end.

Definition dict_contains (d : list (string * value)) (key : string) : bool :=
  match dict_lookup d key with
  | Some _ => true
  | None => false
  end.

Definition dict_get (d : list (string * value)) (key : string) (default : value) : value :=
  match dict_lookup d key with
  | Some v => v
  | None => default
  end.

(** [key in s] on a [str]: substring test. *)
Definition str_contains (s key : string) : bool :=
  match String.index 0 key s with
  | Some _ => true
  | None => false
  end.

(** [key in container] for a [str] key. *)
Definition contains (key : string) (container : value) : result bool :=
  match container with
  | VDict d => Ok (dict_contains d key)
  | VStr s => Ok (str_contains s key)
  | VList l =>
      Ok (existsb (fun x => match x with
                            | VStr s => String.eqb s key
                            | _ => false
                            end) l)
  | _ => Raise (TypeError ("argument of type '" ++ type_name container
                             ++ "' is not iterable"))
  end.

(** [container[key]] for a [str] key. *)
Definition getitem (container : value) (key : string) : result value :=
  match container with
  | VDict d =>
      match dict_lookup d key with
      | Some v => Ok v
      | None => Raise (KeyError (VStr key))
      end
  | VStr _ => Raise (TypeError "string indices must be integers, not 'str'")
  | VList _ => Raise (TypeError "list indices must be integers or slices, not str")
  | _ => Raise (TypeError ("'" ++ type_name container
                             ++ "' object is not subscriptable"))
  end.

(** ** Module constants *)

Definition RETRY_PERIOD : Z := 600.
Definition ENDPOINT : string :=
  "https://practicum.yandex.ru/api/user_api/homework_statuses/".
Definition HTTPStatus_OK : Z := 200.

Definition HOMEWORK_VERDICTS : list (string * string) :=
  [ ("approved", "Работа проверена: ревьюеру всё понравилось. Ура!");
    ("reviewing", "Работа взята на проверку ревьюером.");
    ("rejected", "Работа проверена: у ревьюера есть замечания.") ].

Definition TEXT : string := "Hi, practicum".

Fixpoint verdict_lookup (m : list (string * string)) (key : string) : option string :=
  match m with
  | [] => None
  | (k, v) :: rest => if String.eqb k key then Some v else verdict_lookup rest key
  end.

(** [status in HOMEWORK_VERDICTS]: the key is hashed first, and a list or
    a dict is unhashable. *)
Definition in_verdicts (status : value) : result bool :=
  match status with
  | VStr s =>
      Ok (match verdict_lookup HOMEWORK_VERDICTS s with
          | Some _ => true
          | None => false
          end)
  | VList _ | VDict _ =>
      Raise (TypeError ("unhashable type: '" ++ type_name status ++ "'"))
  | _ => Ok false
  end.

(** [HOMEWORK_VERDICTS[status]] *)
Definition verdicts_getitem (status : value) : result string :=
  match status with
  | VStr s =>
      match verdict_lookup HOMEWORK_VERDICTS s with
      | Some v => Ok v
      | None => Raise (KeyError status)
      end
  | VList _ | VDict _ =>
      Raise (TypeError ("unhashable type: '" ++ type_name status ++ "'"))
  | _ => Raise (KeyError status)
  end.

(** ** check_tokens *)

(** The three module globals read from the environment. *)
Record config : Type := {
  PRACTICUM_TOKEN : option string;
  TELEGRAM_TOKEN : option string;
  TELEGRAM_CHAT_ID : option string
}.

Definition tokens : list string :=
  ["PRACTICUM_TOKEN"; "TELEGRAM_TOKEN"; "TELEGRAM_CHAT_ID"].

(** [globals()[name]] for the names of [tokens]. *)
Definition globals (cfg : config) (name : string) : option string :=
  if String.eqb name "PRACTICUM_TOKEN" then PRACTICUM_TOKEN cfg
  else if String.eqb name "TELEGRAM_TOKEN" then TELEGRAM_TOKEN cfg
  else if String.eqb name "TELEGRAM_CHAT_ID" then TELEGRAM_CHAT_ID cfg
  else None.

(** Truth value of a [str] or [None]. *)
Definition truthy (x : option string) : bool :=
  match x with
  | None => false
  | Some s => negb (String.eqb s EmptyString)
  end.

Definition missing_tokens (cfg : config) : list string :=
  filter (fun name => negb (truthy (globals cfg name))) tokens.

Definition missing_message (missing : list string) : string :=
  "Отсутствует обязательная переменная окружения: "
    ++ join ", " missing ++ ".".

Definition check_tokens (cfg : config) : result unit :=
  match missing_tokens cfg with
  | [] => Ok tt
  | _ :: _ => Raise (MissingTokensError (missing_message (missing_tokens cfg)))
  end.

(** ** check_response *)

Definition check_response (response : pyobj) : result (list value) :=
  match response with
  | Decoded (VDict d) =>
      if negb (dict_contains d "homeworks") then
        Raise (InvalidAPIResponseError
                 ("Отсутствует ожидаемый ключ " ++ dquote ++ "homeworks"
                    ++ dquote ++ " в ответе API."))
      else if negb (dict_contains d "current_date") then
        Raise (InvalidAPIResponseError
                 ("Отсутствует ожидаемый ключ " ++ dquote ++ "current_date"
                    ++ dquote ++ " в ответе API."))
      else
        match dict_get d "homeworks" VNone with
        | VList homeworks => Ok homeworks
        | _ => Raise (TypeError "Значение ключа homeworks не является списком.")
        end
  | _ => Raise (TypeError "Ответ не является словарем.")
  end.

Section Program.
Context {py : Interpreter}.

(** ** get_api_answer *)

(** What [requests.get] did, and what [response.json()] does on the
    body.  In [Response status_code json], [json] is the value
    [response.json()] decodes, [None] when it raises
    [json.JSONDecodeError].  In [ResponseJsonRaises status_code error],
    [response.json()] raises [error], an exception that is no
    [json.JSONDecodeError]: [ValueError] for an integer literal beyond
    the interpreter's digit limit, [RecursionError] for a body nested
    too deeply. *)
Inductive get_outcome : Type :=
| RequestException
| Response (status_code : Z) (json : option value)
| ResponseJsonRaises (status_code : Z) (error : exn).

(** The [except json.JSONDecodeError] branch only logs, so control
    reaches [return response] with [response] still bound to the
    [requests.Response] object.  An exception of [response.json()] of
    another class is not caught and leaves the function. *)
Definition get_api_answer (timestamp : value) (outcome : get_outcome)
  : result pyobj :=
  let params := VDict [("from_date", timestamp)] in
  match outcome with
  | RequestException =>
      Raise (APIRequestError
               ("Ошибка запроса к " ++ ENDPOINT ++ " c params="
                  ++ str params ++ "."))
  | Response status_code json =>
      if negb (status_code =? HTTPStatus_OK) then
        Raise (APIRequestError ("Эндпоинт - " ++ ENDPOINT ++ " недоступен."))
      else
        match json with
        | Some v => Ok (Decoded v)
        | None => Ok (ResponseObject status_code)
        end
  | ResponseJsonRaises status_code error =>
      if negb (status_code =? HTTPStatus_OK) then
        Raise (APIRequestError ("Эндпоинт - " ++ ENDPOINT ++ " недоступен."))
      else Raise error
  end.

(** ** parse_status *)

Definition parse_status (homework : value) : result string :=
  has_name <- contains "homework_name" homework ;;
  has_status <- (if has_name then contains "status" homework else Ok false) ;;
  if negb has_name || negb has_status then
    Raise (InvalidAPIResponseError
             "Отсутствуют ключи homework_name или status в ответе API")
  else
    homework_name <- getitem homework "homework_name" ;;
    homework_status <- getitem homework "status" ;;
    known <- in_verdicts homework_status ;;
    if negb known then
      Raise (UnknownHomeworkStatusError
               ("Неизвестный статус домашней работы: " ++ str homework_status))
    else
      verdict <- verdicts_getitem homework_status ;;
      Ok ("Изменился статус проверки работы " ++ dquote ++ str homework_name
            ++ dquote ++ ". " ++ verdict).

(** ** send_message *)

(** One call of [bot.send_message]: the text, and whether the call
    returned ([true]) or raised ([false]). *)
Record attempt : Type := { text : string; delivered : bool }.

(** [send_message] catches every [Exception] of the delivery, so it
    returns [None] either way; the call is appended to the trace. *)
Definition send_message (delivers : bool) (message : string) : list attempt :=
  [ {| text := message; delivered := delivers |} ].

(** ** main *)

(** A computation of the loop: the calls of [send_message] made so
    far, and the value or the exception it ends with. *)
Definition io (A : Type) : Type := (list attempt * result A)%type.

Definition io_bind {A B : Type} (m : io A) (f : A -> io B) : io B :=
  match m with
  | (sent, Ok a) => let (sent', r) := f a in ((sent ++ sent')%list, r)
  | (sent, Raise e) => (sent, Raise e)
  end.

Definition lift {A : Type} (r : result A) : io A := ([], r).

Notation "x <<- m ;; k" := (io_bind m (fun x => k))
  (at level 61, m at next level, right associativity).

(** [response.get(key, default)] *)
Definition response_get (response : pyobj) (key : string) (default : value)
  : result value :=
  match response with
  | Decoded (VDict d) => Ok (dict_get d key default)
  | Decoded v =>
      Raise (AttributeError ("'" ++ type_name v
                               ++ "' object has no attribute 'get'"))
  | ResponseObject _ =>
      Raise (AttributeError "'Response' object has no attribute 'get'")
  end.

(** The two locals of [main] that live across iterations. *)
Record loop_state : Type := {
  timestamp : value;
  last_error_message : option string
}.

(** What the outside world does during one iteration. *)
Record cycle : Type := {
  fetched : get_outcome;   (* the outcome of [requests.get] *)
  delivers : bool          (* whether [bot.send_message] returns *)
}.

(** The [try] block of the loop; its value is the new [timestamp].
    The test [if not response] only guards a call to [logging.error]. *)
Definition try_block (timestamp : value) (c : cycle) : io value :=
  response <<- lift (get_api_answer timestamp (fetched c)) ;;
  homeworks <<- lift (check_response response) ;;
  _ <<- match homeworks with
        | first :: _ =>
            message <<- lift (parse_status first) ;;
            (send_message (delivers c) message, Ok tt)
        | [] => ([], Ok tt)
        end ;;
  lift (response_get response "current_date" timestamp).

(** [last_error_message != message] *)
Definition differs (last : option string) (message : string) : bool :=
  match last with
  | None => true
  | Some m => negb (String.eqb m message)
  end.

Definition failure_message (error : exn) : string :=
  "Сбой в работе программы: " ++ exn_str error ++ ".".

(** One pass through the body of [while True]. *)
Definition iteration (st : loop_state) (c : cycle) : list attempt * loop_state :=
  match try_block (timestamp st) c with
  | (sent, Ok new_timestamp) =>
      (sent, {| timestamp := new_timestamp;
                last_error_message := last_error_message st |})
  | (sent, Raise error) =>
      let message := failure_message error in
      if differs (last_error_message st) message then
        ((sent ++ send_message (delivers c) message)%list,
         {| timestamp := timestamp st; last_error_message := Some message |})
      else (sent, st)
  end.

(** The loop over the iterations that happen before the interrupt. *)
Fixpoint loop (st : loop_state) (cycles : list cycle) : list attempt * loop_state :=
  match cycles with
  | [] => ([], st)
  | c :: rest =>
      let (sent, st') := iteration st c in
      let (sent', st'') := loop st' rest in
      ((sent ++ sent')%list, st'')
  end.

(** [main]: [bot] is the outcome of
    [telebot.TeleBot(token=TELEGRAM_TOKEN)], which returns the bot or
    raises (the library validates the token); [now] is
    [int(time.time())]; [greeting] tells whether the delivery of [TEXT]
    returns; [cycles] are the iterations that run before
    [KeyboardInterrupt] ends the loop. *)
Definition main (cfg : config) (bot : result unit) (now : Z) (greeting : bool)
           (cycles : list cycle) : io loop_state :=
  _ <<- lift (check_tokens cfg) ;;
  _ <<- lift bot ;;
  let st := {| timestamp := VInt now; last_error_message := None |} in
  let (sent, st') := loop st cycles in
  ((send_message greeting TEXT ++ sent)%list, Ok st').

(** The diagnostic text of an iteration that fails, [None] when the
    [try] block completes. *)
Definition diagnostic (timestamp : value) (c : cycle) : option string :=
  match snd (try_block timestamp c) with
  | Ok _ => None
  | Raise error => Some (failure_message error)
  end.
End Program.

(** ** A concrete interpreter *)

(** [repr] of a [str] whose characters are ASCII or printable: quotes
    are chosen and characters escaped as CPython does. *)
Definition hex_digit (n : nat) : ascii :=
  nth n (list_ascii_of_string "0123456789abcdef") "0"%char.

Definition escape_char (quote c : ascii) : string :=
  let n := nat_of_ascii c in
  if (Ascii.eqb c quote || Ascii.eqb c "\"%char)%bool then
    String "\"%char (String c EmptyString)
  else if Nat.eqb n 9 then "\t"
  else if Nat.eqb n 10 then "\n"
  else if Nat.eqb n 13 then "\r"
  else if (Nat.ltb n 32 || Nat.eqb n 127)%bool then
    String "\"%char (String "x"%char
      (String (hex_digit (Nat.div n 16))
         (String (hex_digit (Nat.modulo n 16)) EmptyString)))
  else String c EmptyString.

Definition has_char (c : ascii) (s : string) : bool :=
  existsb (Ascii.eqb c) (list_ascii_of_string s).

Definition ascii_repr : Interpreter := fun s =>
  let apostrophe := ascii_of_nat 39 in
  let quote :=
    if (has_char apostrophe s && negb (has_char (ascii_of_nat 34) s))%bool
    then ascii_of_nat 34 else apostrophe in
  String quote
    (String.concat EmptyString (map (escape_char quote) (list_ascii_of_string s))
       ++ String quote EmptyString).

(** ** Concrete inputs, used by the examples below *)

Definition hw1_record : value :=
  VDict [("homework_name", VStr "hw1"); ("status", VStr "approved")].

Definition payload_C : value :=
  VDict [("homeworks", VList [hw1_record]); ("current_date", VInt 1000)].

Definition payload_D : value :=
  VDict [("homeworks", VList []); ("current_date", VInt 2000)].

Definition payload_E : value :=
  VDict [("homeworks",
          VList [VDict [("homework_name", VStr "hw2"); ("status", VStr "weird")]]);
         ("current_date", VInt 3000)].

Definition config_A : config :=
  {| PRACTICUM_TOKEN := Some "practicum";
     TELEGRAM_TOKEN := None;
     TELEGRAM_CHAT_ID := Some "42" |}.

Definition start_state : loop_state :=
  {| timestamp := VInt 500; last_error_message := None |}.

Definition answers (payload : value) : cycle :=
  {| fetched := Response 200 (Some payload); delivers := true |}.

Definition unavailable : cycle :=
  {| fetched := Response 503 None; delivers := true |}.

Definition unreachable : cycle :=
  {| fetched := RequestException; delivers := false |}.

Definition unavailable_message : string :=
  "Сбой в работе программы: Эндпоинт - " ++ ENDPOINT ++ " недоступен..".

(** The text of [check_response] for a missing key. *)
Definition missing_key_message (key : string) : string :=
  "Отсутствует ожидаемый ключ " ++ dquote ++ key ++ dquote ++ " в ответе API.".

Definition not_a_dict_message : string := "Ответ не является словарем.".
Definition not_a_list_message : string :=
  "Значение ключа homeworks не является списком.".
Definition missing_keys_message : string :=
  "Отсутствуют ключи homework_name или status в ответе API".

Definition is_dict (response : pyobj) : bool :=
  match response with
  | Decoded (VDict _) => true
  | _ => false
  end.

Definition is_list (v : value) : bool :=
  match v with
  | VList _ => true
  | _ => false
  end.

(** The text [parse_status] composes from a name and a verdict. *)
Definition status_message (name verdict : string) : string :=
  "Изменился статус проверки работы " ++ dquote ++ name ++ dquote ++ ". "
    ++ verdict.

Definition unknown_status_message (status : string) : string :=
  "Неизвестный статус домашней работы: " ++ status.

Definition unavailable_error : exn :=
  APIRequestError ("Эндпоинт - " ++ ENDPOINT ++ " недоступен.").

(** The closed set of status codes. *)
Definition known_status (status : value) : bool :=
  match status with
  | VStr s => existsb (fun code => String.eqb code s)
                ["approved"; "reviewing"; "rejected"]
  | _ => false
  end.

(** Objects [hash] accepts: everything but lists and dicts. *)
Definition hashable (v : value) : bool :=
  match v with
  | VList _ | VDict _ => false
  | _ => true
  end.

(** A value of the environment that counts as missing. *)
Definition absent (x : option string) : Prop := truthy x = false.

(** The state after one failed fetch from [start_state]. *)
Definition after_first_failure : loop_state :=
  snd (iteration (py := ascii_repr) start_state unavailable).

(** The text the specification gives for scenario C. *)
Definition specified_text_C : string :=
  "Status changed for submission " ++ dquote ++ "hw1" ++ dquote
    ++ ": Работа проверена: ревьюеру всё понравилось. Ура!".

(** A record whose status is a JSON array. *)
Definition list_status_record : value :=
  VDict [("homework_name", VStr "hw2"); ("status", VList [])].

(** [isinstance(e, PracticumAPIError)]: the four classes of
    [exceptions.py] derive from it, the built-in ones do not. *)
Definition is_PracticumAPIError (e : exn) : bool :=
  match e with
  | MissingTokensError _ | APIRequestError _ | InvalidAPIResponseError _
  | UnknownHomeworkStatusError _ => true
  | TypeError _ | KeyError _ | AttributeError _ | ValueError _
  | RecursionError _ => false
  end.

(** The texts that get through the test [last_error_message != message]
    when the iterations fail with [texts] in this order. *)
Fixpoint notified (last : option string) (texts : list string) : list string :=
  match texts with
  | [] => []
  | m :: rest =>
      if differs last m then m :: notified (Some m) rest
      else notified (Some m) rest
  end.

(** A value of the environment that is a non-empty string. *)
Definition present (x : option string) : Prop := truthy x = true.

Definition config_full : config :=
  {| PRACTICUM_TOKEN := Some "practicum";
     TELEGRAM_TOKEN := Some "telegram";
     TELEGRAM_CHAT_ID := Some "42" |}.

(** A payload whose second record is no record and whose date is text. *)
Definition payload_mixed : value :=
  VDict [("homeworks", VList [hw1_record; VInt 3]);
         ("current_date", VStr "tomorrow")].

(** * Properties *)

(** ** check_response *)

Lemma dict_contains_false (d : list (string * value)) (key : string) :
  dict_contains d key = false <-> dict_lookup d key = None.
Proof.
  unfold dict_contains. destruct (dict_lookup d key); split; congruence.
Qed.

Lemma dict_contains_true (d : list (string * value)) (key : string) :
  dict_contains d key = true <-> exists v, dict_lookup d key = Some v.
Proof.
  unfold dict_contains. destruct (dict_lookup d key) as [v|]; split.
  - intros _. now exists v.
  - reflexivity.
  - discriminate.
  - intros [v H]. discriminate.
Qed.

(** C3: [check_response] checks in order and stops at the first failure:
    a response that is not a dict raises [TypeError]; a dict without
    ["homeworks"] raises [InvalidAPIResponseError] naming that key; one
    with ["homeworks"] but without ["current_date"] raises
    [InvalidAPIResponseError] naming ["current_date"]; one with both keys
    whose ["homeworks"] is no list raises [TypeError]; otherwise the list
    is returned, the empty list included. *)
Theorem check_response_in_order :
  (forall response, is_dict response = false ->
     check_response response = Raise (TypeError not_a_dict_message))
  /\ (forall d, dict_contains d "homeworks" = false ->
        check_response (Decoded (VDict d))
        = Raise (InvalidAPIResponseError (missing_key_message "homeworks")))
  /\ (forall d, dict_contains d "homeworks" = true ->
        dict_contains d "current_date" = false ->
        check_response (Decoded (VDict d))
        = Raise (InvalidAPIResponseError (missing_key_message "current_date")))
  /\ (forall d v, dict_lookup d "homeworks" = Some v ->
        dict_contains d "current_date" = true ->
        is_list v = false ->
        check_response (Decoded (VDict d)) = Raise (TypeError not_a_list_message))
  /\ (forall d homeworks, dict_lookup d "homeworks" = Some (VList homeworks) ->
        dict_contains d "current_date" = true ->
        check_response (Decoded (VDict d)) = Ok homeworks)
  /\ (forall d, dict_lookup d "homeworks" = Some (VList []) ->
        dict_contains d "current_date" = true ->
        check_response (Decoded (VDict d)) = Ok []).
Proof.
  repeat split.
  - intros [v|code] H; [destruct v|]; try discriminate H; reflexivity.
  - intros d H. simpl. now rewrite H.
  - intros d H1 H2. simpl. now rewrite H1, H2.
  - intros d v Hv Hc Hl. simpl.
    assert (Hh : dict_contains d "homeworks" = true)
      by (apply dict_contains_true; eauto).
    rewrite Hh, Hc. simpl. unfold dict_get. rewrite Hv.
    destruct v; try discriminate Hl; reflexivity.
  - intros d l Hv Hc. simpl.
    assert (Hh : dict_contains d "homeworks" = true)
      by (apply dict_contains_true; eauto).
    rewrite Hh, Hc. simpl. unfold dict_get. now rewrite Hv.
  - intros d Hv Hc. simpl.
    assert (Hh : dict_contains d "homeworks" = true)
      by (apply dict_contains_true; eauto).
    rewrite Hh, Hc. simpl. unfold dict_get. now rewrite Hv.
Qed.

Lemma check_response_in_order_witness :
  check_response (ResponseObject 200) = Raise (TypeError not_a_dict_message)
  /\ check_response (Decoded (VList [])) = Raise (TypeError not_a_dict_message)
  /\ check_response (Decoded (VDict [("current_date", VInt 7)]))
     = Raise (InvalidAPIResponseError (missing_key_message "homeworks"))
  /\ check_response (Decoded (VDict [("homeworks", VInt 7)]))
     = Raise (InvalidAPIResponseError (missing_key_message "current_date"))
  /\ check_response (Decoded (VDict [("homeworks", VInt 7); ("current_date", VInt 7)]))
     = Raise (TypeError not_a_list_message)
  /\ check_response (Decoded payload_C) = Ok [hw1_record]
  /\ check_response (Decoded payload_D) = Ok [].
Proof.
  destruct check_response_in_order as (H1 & H2 & H3 & H4 & H5 & H6).
  split; [apply H1; reflexivity|].
  split; [apply H1; reflexivity|].
  split; [apply H2; reflexivity|].
  split; [apply H3; reflexivity|].
  split; [apply (H4 _ (VInt 7)); reflexivity|].
  split; [apply H5; reflexivity|].
  apply H6; reflexivity.
Defined.

(** ** check_tokens *)

Lemma missing_tokens_In (cfg : config) (name : string) :
  In name (missing_tokens cfg)
  <-> In name tokens /\ truthy (globals cfg name) = false.
Proof.
  unfold missing_tokens. rewrite filter_In.
  now rewrite negb_true_iff.
Qed.

Lemma missing_tokens_nonempty (cfg : config) :
  absent (PRACTICUM_TOKEN cfg) \/ absent (TELEGRAM_TOKEN cfg)
  \/ absent (TELEGRAM_CHAT_ID cfg) ->
  missing_tokens cfg <> [].
Proof.
  unfold absent. intros H Hnil.
  assert (Hin : forall name, In name tokens ->
                  truthy (globals cfg name) = false -> False).
  { intros name Hn Ht.
    assert (Hm : In name (missing_tokens cfg)) by now apply missing_tokens_In.
    rewrite Hnil in Hm. exact Hm. }
  destruct H as [H | [H | H]].
  - apply (Hin "PRACTICUM_TOKEN"); [simpl; tauto | exact H].
  - apply (Hin "TELEGRAM_TOKEN"); [simpl; tauto | exact H].
  - apply (Hin "TELEGRAM_CHAT_ID"); [simpl; tauto | exact H].
Qed.

(** C8: when one of the three values is empty or absent, [check_tokens]
    raises [MissingTokensError]; the message joins exactly the names whose
    value is empty or absent, all of them, in the order of [tokens] and
    separated by a comma and a space: a name of [tokens] occurs in the
    message exactly when its value is missing, and the message is spelled
    out below for each combination; [main] ends with that exception
    before the bot is built, before the greeting and before any
    iteration; when only [TELEGRAM_TOKEN] is missing the message names
    only it. *)
Theorem check_tokens_lists_all_missing {py : Interpreter} (cfg : config) :
  absent (PRACTICUM_TOKEN cfg) \/ absent (TELEGRAM_TOKEN cfg)
  \/ absent (TELEGRAM_CHAT_ID cfg) ->
  let told names :=
    check_tokens cfg
    = Raise (MissingTokensError
               ("Отсутствует обязательная переменная окружения: "
                  ++ names ++ ".")) in
  check_tokens cfg
  = Raise (MissingTokensError
             ("Отсутствует обязательная переменная окружения: "
                ++ join ", " (missing_tokens cfg) ++ "."))
  /\ (forall name, In name (missing_tokens cfg)
                   <-> In name tokens /\ absent (globals cfg name))
  /\ (forall bot now greeting cycles,
        main cfg bot now greeting cycles
        = ([], Raise (MissingTokensError (missing_message (missing_tokens cfg)))))
  /\ (~ absent (PRACTICUM_TOKEN cfg) -> absent (TELEGRAM_TOKEN cfg) ->
      ~ absent (TELEGRAM_CHAT_ID cfg) ->
      check_tokens cfg
      = Raise (MissingTokensError
                 "Отсутствует обязательная переменная окружения: TELEGRAM_TOKEN."))
  /\ (exists message,
        check_tokens cfg = Raise (MissingTokensError message)
        /\ forall name, In name tokens ->
                        (absent (globals cfg name)
                         <-> str_contains message name = true))
  /\ (absent (PRACTICUM_TOKEN cfg) -> absent (TELEGRAM_TOKEN cfg) ->
      absent (TELEGRAM_CHAT_ID cfg) ->
      told "PRACTICUM_TOKEN, TELEGRAM_TOKEN, TELEGRAM_CHAT_ID")
  /\ (absent (PRACTICUM_TOKEN cfg) -> absent (TELEGRAM_TOKEN cfg) ->
      ~ absent (TELEGRAM_CHAT_ID cfg) ->
      told "PRACTICUM_TOKEN, TELEGRAM_TOKEN")
  /\ (absent (PRACTICUM_TOKEN cfg) -> ~ absent (TELEGRAM_TOKEN cfg) ->
      absent (TELEGRAM_CHAT_ID cfg) ->
      told "PRACTICUM_TOKEN, TELEGRAM_CHAT_ID")
  /\ (~ absent (PRACTICUM_TOKEN cfg) -> absent (TELEGRAM_TOKEN cfg) ->
      absent (TELEGRAM_CHAT_ID cfg) ->
      told "TELEGRAM_TOKEN, TELEGRAM_CHAT_ID")
  /\ (absent (PRACTICUM_TOKEN cfg) -> ~ absent (TELEGRAM_TOKEN cfg) ->
      ~ absent (TELEGRAM_CHAT_ID cfg) ->
      told "PRACTICUM_TOKEN")
  /\ (~ absent (PRACTICUM_TOKEN cfg) -> ~ absent (TELEGRAM_TOKEN cfg) ->
      absent (TELEGRAM_CHAT_ID cfg) ->
      told "TELEGRAM_CHAT_ID").
Proof.
  intros H told. pose proof (missing_tokens_nonempty cfg H) as Hne.
  assert (Hc : check_tokens cfg
               = Raise (MissingTokensError (missing_message (missing_tokens cfg)))).
  { unfold check_tokens. destruct (missing_tokens cfg); congruence. }
  assert (Hm : missing_tokens cfg
               = filter (fun name => negb (truthy (globals cfg name))) tokens)
    by reflexivity.
  unfold tokens in Hm at 1. cbn [filter] in Hm.
  change (globals cfg "PRACTICUM_TOKEN") with (PRACTICUM_TOKEN cfg) in Hm.
  change (globals cfg "TELEGRAM_TOKEN") with (TELEGRAM_TOKEN cfg) in Hm.
  change (globals cfg "TELEGRAM_CHAT_ID") with (TELEGRAM_CHAT_ID cfg) in Hm.
  split; [exact Hc|].
  split; [intros name; apply missing_tokens_In|].
  split; [intros bot now greeting cycles; unfold main; rewrite Hc; reflexivity|].
  subst told. unfold absent in *. rewrite Hc, Hm.
  assert (Hall : forall P : string -> Prop,
            P "PRACTICUM_TOKEN" -> P "TELEGRAM_TOKEN" -> P "TELEGRAM_CHAT_ID" ->
            forall name, In name tokens -> P name).
  { intros P H1 H2 H3 name [<- | [<- | [<- | []]]]; assumption. }
  clear Hc Hm Hne.
  destruct (truthy (PRACTICUM_TOKEN cfg)) eqn:E1,
           (truthy (TELEGRAM_TOKEN cfg)) eqn:E2,
           (truthy (TELEGRAM_CHAT_ID cfg)) eqn:E3;
    try (exfalso; destruct H as [H | [H | H]]; discriminate H);
    (split; [intros; try congruence; reflexivity|]);
    (split;
     [eexists; split; [reflexivity|]; apply Hall;
      change (globals cfg "PRACTICUM_TOKEN") with (PRACTICUM_TOKEN cfg);
      change (globals cfg "TELEGRAM_TOKEN") with (TELEGRAM_TOKEN cfg);
      change (globals cfg "TELEGRAM_CHAT_ID") with (TELEGRAM_CHAT_ID cfg);
      rewrite ?E1, ?E2, ?E3; split; intros K;
      try reflexivity; try (vm_compute in K; discriminate K);
      try discriminate K; vm_compute; reflexivity
     |]);
    repeat split; intros; try congruence; reflexivity.
Qed.

Lemma check_tokens_lists_all_missing_witness :
  check_tokens config_A
  = Raise (MissingTokensError
             "Отсутствует обязательная переменная окружения: TELEGRAM_TOKEN.")
  /\ main (py := ascii_repr) config_A (Ok tt) 500 true [answers payload_C]
     = ([], Raise (MissingTokensError
                     "Отсутствует обязательная переменная окружения: TELEGRAM_TOKEN."))
  /\ check_tokens {| PRACTICUM_TOKEN := None;
                     TELEGRAM_TOKEN := Some EmptyString;
                     TELEGRAM_CHAT_ID := None |}
     = Raise (MissingTokensError
                "Отсутствует обязательная переменная окружения: PRACTICUM_TOKEN, TELEGRAM_TOKEN, TELEGRAM_CHAT_ID.").
Proof.
  assert (H : absent (PRACTICUM_TOKEN config_A) \/ absent (TELEGRAM_TOKEN config_A)
              \/ absent (TELEGRAM_CHAT_ID config_A))
    by (right; left; reflexivity).
  destruct (check_tokens_lists_all_missing (py := ascii_repr) config_A H)
    as (H1 & _ & H3 & _).
  split; [exact H1|]. split; [exact (H3 (Ok tt) 500 true [answers payload_C])|].
  pose (none := {| PRACTICUM_TOKEN := None;
                   TELEGRAM_TOKEN := Some EmptyString;
                   TELEGRAM_CHAT_ID := None |}).
  assert (H' : absent (PRACTICUM_TOKEN none) \/ absent (TELEGRAM_TOKEN none)
               \/ absent (TELEGRAM_CHAT_ID none))
    by (left; reflexivity).
  destruct (check_tokens_lists_all_missing (py := ascii_repr) none H')
    as (_ & _ & _ & _ & _ & K & _).
  apply K; reflexivity.
Defined.

(** Two values missing: both names are listed, in the order of [tokens]. *)
Example check_tokens_two_missing :
  check_tokens {| PRACTICUM_TOKEN := Some EmptyString;
                  TELEGRAM_TOKEN := Some "t";
                  TELEGRAM_CHAT_ID := None |}
  = Raise (MissingTokensError
             "Отсутствует обязательная переменная окружения: PRACTICUM_TOKEN, TELEGRAM_CHAT_ID.").
Proof. reflexivity. Qed.

Example check_tokens_all_present :
  check_tokens {| PRACTICUM_TOKEN := Some "p";
                  TELEGRAM_TOKEN := Some "t";
                  TELEGRAM_CHAT_ID := Some "1" |} = Ok tt.
Proof. reflexivity. Qed.

(** ** get_api_answer *)

Lemma string_app_assoc (a b c : string) : (a ++ b) ++ c = a ++ b ++ c.
Proof.
  induction a as [|x a IH]; simpl; [reflexivity | now rewrite IH].
Qed.

Lemma get_api_answer_request_exception {py : Interpreter} (timestamp : value) :
  get_api_answer timestamp RequestException
  = Raise (APIRequestError
             ("Ошибка запроса к " ++ ENDPOINT ++ " c params={"
                ++ str_repr "from_date" ++ ": " ++ repr timestamp ++ "}.")).
Proof.
  unfold get_api_answer, str, repr; fold repr. cbn [map join].
  do 2 f_equal. f_equal. f_equal.
  change ("{" ++ (str_repr "from_date" ++ ": " ++ repr timestamp) ++ "}")
    with (String "{" ((str_repr "from_date" ++ ": " ++ repr timestamp) ++ "}")).
  change (" c params={" ++ str_repr "from_date" ++ ": " ++ repr timestamp ++ "}.")
    with (" c params=" ++ String "{" (str_repr "from_date" ++ ": " ++ repr timestamp ++ "}.")).
  cbn [append]. do 10 f_equal.
  now rewrite !string_app_assoc.
Qed.

Lemma get_api_answer_not_ok {py : Interpreter} (timestamp : value)
      (status_code : Z) (json : option value) :
  status_code <> HTTPStatus_OK ->
  get_api_answer timestamp (Response status_code json) = Raise unavailable_error.
Proof.
  intros H. unfold get_api_answer.
  destruct (Z.eqb_spec status_code HTTPStatus_OK) as [E|E]; [contradiction|].
  reflexivity.
Qed.

(** C1: a body that is not valid JSON, under status 200, does not make
    [get_api_answer] raise: the handler of [json.JSONDecodeError] falls
    through to [return response], and the caller receives the
    [requests.Response] object, which [check_response] then rejects as
    "not a dict". *)
Theorem get_api_answer_returns_undecoded_response {py : Interpreter}
        (timestamp : value) :
  get_api_answer timestamp (Response HTTPStatus_OK None)
  = Ok (ResponseObject HTTPStatus_OK)
  /\ check_response (ResponseObject HTTPStatus_OK)
     = Raise (TypeError not_a_dict_message)
  /\ diagnostic timestamp {| fetched := Response HTTPStatus_OK None;
                             delivers := true |}
     = Some "Сбой в работе программы: Ответ не является словарем..".
Proof. repeat split. Qed.

(** C7, as stated, fails for the 2xx codes other than 200: a response
    with status 204 takes the failure path. *)
Lemma status_204_is_unavailable :
  get_api_answer (py := ascii_repr) (VInt 500) (Response 204 (Some payload_D))
  = Raise (APIRequestError
             "Эндпоинт - https://practicum.yandex.ru/api/user_api/homework_statuses/ недоступен.").
Proof. reflexivity. Qed.

(** C7, amended: a [requests.RequestException] is turned into an
    [APIRequestError] whose message holds the endpoint and the
    parameters; every response whose status code is not 200 raises
    [APIRequestError], whatever the code and whatever [response.json()]
    would do on its body; a response with status 200 whose body
    [response.json()] decodes or rejects with [json.JSONDecodeError]
    does not raise. *)
Theorem get_api_answer_transport_errors {py : Interpreter} (timestamp : value) :
  get_api_answer timestamp RequestException
  = Raise (APIRequestError
             ("Ошибка запроса к " ++ ENDPOINT ++ " c params="
                ++ str (VDict [("from_date", timestamp)]) ++ "."))
  /\ (forall status_code json,
        status_code <> 200 ->
        get_api_answer timestamp (Response status_code json)
        = Raise (APIRequestError ("Эндпоинт - " ++ ENDPOINT ++ " недоступен.")))
  /\ (forall json, exists response,
        get_api_answer timestamp (Response 200 json) = Ok response)
  /\ (forall status_code error,
        status_code <> 200 ->
        get_api_answer timestamp (ResponseJsonRaises status_code error)
        = Raise (APIRequestError ("Эндпоинт - " ++ ENDPOINT ++ " недоступен."))).
Proof.
  split; [reflexivity|]. split; [|split].
  - intros status_code json H. now apply get_api_answer_not_ok.
  - intros [v|]; eexists; reflexivity.
  - intros status_code error H. unfold get_api_answer.
    destruct (Z.eqb_spec status_code HTTPStatus_OK) as [E|E];
      [contradiction | reflexivity].
Qed.

Lemma get_api_answer_transport_errors_witness :
  get_api_answer (py := ascii_repr) (VInt 1700000000) RequestException
  = Raise (APIRequestError
             "Ошибка запроса к https://practicum.yandex.ru/api/user_api/homework_statuses/ c params={'from_date': 1700000000}.")
  /\ get_api_answer (py := ascii_repr) (VInt 1700000000) (Response 503 None)
     = Raise (APIRequestError
                "Эндпоинт - https://practicum.yandex.ru/api/user_api/homework_statuses/ недоступен.")
  /\ get_api_answer (py := ascii_repr) (VInt 1700000000) (Response 201 (Some payload_C))
     = Raise (APIRequestError
                "Эндпоинт - https://practicum.yandex.ru/api/user_api/homework_statuses/ недоступен.").
Proof.
  destruct (get_api_answer_transport_errors (py := ascii_repr) (VInt 1700000000))
    as (H1 & H2 & _).
  split; [exact H1|].
  split; [apply (H2 503 None); lia | apply (H2 201 (Some payload_C)); lia].
Defined.

(** ** parse_status *)

(** [parse_status] on a dict, by the two lookups. *)
Lemma parse_status_dict {py : Interpreter} (d : list (string * value)) :
  parse_status (VDict d)
  = match dict_lookup d "homework_name", dict_lookup d "status" with
    | Some name, Some status =>
        known <- in_verdicts status ;;
        if negb known then
          Raise (UnknownHomeworkStatusError (unknown_status_message (str status)))
        else
          verdict <- verdicts_getitem status ;;
          Ok (status_message (str name) verdict)
    | _, _ => Raise (InvalidAPIResponseError missing_keys_message)
    end.
Proof.
  unfold parse_status, contains, getitem, dict_contains.
  destruct (dict_lookup d "homework_name") as [name|];
    destruct (dict_lookup d "status") as [status|]; reflexivity.
Qed.

Lemma known_status_lookup (s : string) :
  known_status (VStr s)
  = match verdict_lookup HOMEWORK_VERDICTS s with
    | Some _ => true
    | None => false
    end.
Proof.
  unfold known_status, HOMEWORK_VERDICTS. cbn [existsb verdict_lookup].
  destruct ("approved" =? s)%string; [reflexivity|].
  destruct ("reviewing" =? s)%string; [reflexivity|].
  destruct ("rejected" =? s)%string; reflexivity.
Qed.

Lemma in_verdicts_hashable (status : value) :
  hashable status = true -> in_verdicts status = Ok (known_status status).
Proof.
  destruct status; try discriminate; intros _; try reflexivity.
  unfold in_verdicts. now rewrite known_status_lookup.
Qed.

Lemma parse_status_not_dict {py : Interpreter} (homework : value) (message : string) :
  parse_status homework = Ok message -> exists d, homework = VDict d.
Proof.
  destruct homework as [| b | z | r | s | l | d]; try discriminate.
  - unfold parse_status, contains, bind.
    destruct (str_contains s "homework_name"); [|discriminate].
    destruct (str_contains s "status"); discriminate.
  - unfold parse_status, contains, bind.
    match goal with |- context [existsb ?f l] => destruct (existsb f l) end;
      [|discriminate].
    match goal with |- context [existsb ?f l] => destruct (existsb f l) end;
      discriminate.
  - intros _. now exists d.
Qed.

(** C2, as stated, fails: the text for the record of scenario C is not
    the one the specification gives. *)
Lemma parse_status_hw1_is_not_specified_text :
  parse_status (py := ascii_repr) hw1_record <> Ok specified_text_C.
Proof. intros H. vm_compute in H. discriminate H. Qed.

(** C2, amended: for the record with name "hw1" and status "approved"
    [parse_status] returns the Russian sentence below, and every text it
    returns is [status_message] of the record's name and of the verdict
    of its status. *)
Theorem parse_status_composes_message {py : Interpreter} :
  parse_status hw1_record
  = Ok ("Изменился статус проверки работы " ++ dquote ++ "hw1" ++ dquote
          ++ ". Работа проверена: ревьюеру всё понравилось. Ура!")
  /\ (forall homework message,
        parse_status homework = Ok message ->
        exists d name status verdict,
          homework = VDict d
          /\ dict_lookup d "homework_name" = Some name
          /\ dict_lookup d "status" = Some (VStr status)
          /\ verdict_lookup HOMEWORK_VERDICTS status = Some verdict
          /\ message
             = "Изменился статус проверки работы " ++ dquote ++ str name
                 ++ dquote ++ ". " ++ verdict).
Proof.
  split; [reflexivity|].
  intros homework message H.
  destruct (parse_status_not_dict _ _ H) as [d ->].
  rewrite parse_status_dict in H.
  destruct (dict_lookup d "homework_name") as [name|] eqn:En; [|discriminate].
  destruct (dict_lookup d "status") as [status|] eqn:Es; [|discriminate].
  exists d, name.
  destruct status as [| b | z | r | s | l | d']; try discriminate.
  unfold in_verdicts, verdicts_getitem, bind in H.
  destruct (verdict_lookup HOMEWORK_VERDICTS s) as [verdict|] eqn:E;
    [|discriminate].
  cbn [negb] in H. exists s, verdict. injection H as <-.
  repeat split; assumption || reflexivity.
Qed.

Lemma parse_status_composes_message_witness :
  exists d name status verdict,
    hw1_record = VDict d
    /\ dict_lookup d "homework_name" = Some name
    /\ dict_lookup d "status" = Some (VStr status)
    /\ verdict_lookup HOMEWORK_VERDICTS status = Some verdict
    /\ status_message "hw1" "Работа проверена: ревьюеру всё понравилось. Ура!"
       = "Изменился статус проверки работы " ++ dquote
           ++ str (py := ascii_repr) name ++ dquote ++ ". " ++ verdict.
Proof.
  destruct (parse_status_composes_message (py := ascii_repr)) as [_ H].
  apply (H hw1_record). reflexivity.
Defined.

(** C4: on the record with name "hw2" and the empty list as status, a
    status outside the three codes, [parse_status] does not reach its
    [raise UnknownHomeworkStatusError]: the test
    [homework_status not in HOMEWORK_VERDICTS] hashes the status and
    raises [TypeError] first. *)
Lemma parse_status_list_status_is_type_error :
  known_status (VList []) = false
  /\ parse_status (py := ascii_repr) list_status_record
     = Raise (TypeError "unhashable type: 'list'")
  /\ (forall message,
        parse_status (py := ascii_repr) list_status_record
        <> Raise (UnknownHomeworkStatusError message)).
Proof.
  split; [reflexivity|]. split; [reflexivity|].
  intros message H. vm_compute in H. discriminate H.
Qed.

(** X16: a record without ["homework_name"] or without ["status"]
    raises [InvalidAPIResponseError]; a record with both keys whose
    status is hashable and outside the three codes raises
    [UnknownHomeworkStatusError] with [str] of the status in its message;
    a record with both keys whose status is a list or a dict raises
    [TypeError]; no record whose status is outside the three codes yields
    a text. *)
Theorem parse_status_rejects {py : Interpreter} (d : list (string * value)) :
  (dict_contains d "homework_name" = false \/ dict_contains d "status" = false ->
   parse_status (VDict d) = Raise (InvalidAPIResponseError missing_keys_message))
  /\ (forall name status,
        dict_lookup d "homework_name" = Some name ->
        dict_lookup d "status" = Some status ->
        known_status status = false ->
        (hashable status = true ->
         parse_status (VDict d)
         = Raise (UnknownHomeworkStatusError
                    ("Неизвестный статус домашней работы: " ++ str status)))
        /\ (hashable status = false ->
            parse_status (VDict d)
            = Raise (TypeError ("unhashable type: '" ++ type_name status ++ "'")))
        /\ (forall message, parse_status (VDict d) <> Ok message)).
Proof.
  split.
  - rewrite !dict_contains_false, parse_status_dict.
    intros [H | H]; rewrite H; [reflexivity|].
    destruct (dict_lookup d "homework_name"); reflexivity.
  - intros name status Hn Hs Hk.
    rewrite parse_status_dict, Hn, Hs.
    destruct (hashable status) eqn:Hh.
    + rewrite (in_verdicts_hashable _ Hh), Hk.
      split; [reflexivity|]. split; [discriminate|]. intros message. discriminate.
    + split; [discriminate|].
      assert (E : in_verdicts status
                  = Raise (TypeError ("unhashable type: '" ++ type_name status ++ "'")))
        by (destruct status; try discriminate Hh; reflexivity).
      rewrite E. split; [reflexivity|]. intros message. discriminate.
Qed.

Lemma parse_status_rejects_witness :
  parse_status (py := ascii_repr) (VDict [("status", VStr "approved")])
  = Raise (InvalidAPIResponseError missing_keys_message)
  /\ parse_status (py := ascii_repr)
       (VDict [("homework_name", VStr "hw2"); ("status", VStr "weird")])
     = Raise (UnknownHomeworkStatusError "Неизвестный статус домашней работы: weird")
  /\ parse_status (py := ascii_repr)
       (VDict [("homework_name", VStr "hw2"); ("status", VInt 3)])
     = Raise (UnknownHomeworkStatusError "Неизвестный статус домашней работы: 3")
  /\ parse_status (py := ascii_repr)
       (VDict [("homework_name", VStr "hw2"); ("status", VDict [])])
     = Raise (TypeError "unhashable type: 'dict'").
Proof.
  split.
  { apply (parse_status_rejects (py := ascii_repr) [("status", VStr "approved")]).
    left. reflexivity. }
  split.
  { apply (parse_status_rejects (py := ascii_repr)
             [("homework_name", VStr "hw2"); ("status", VStr "weird")])
      with (name := VStr "hw2") (status := VStr "weird"); reflexivity. }
  split.
  { apply (parse_status_rejects (py := ascii_repr)
             [("homework_name", VStr "hw2"); ("status", VInt 3)])
      with (name := VStr "hw2") (status := VInt 3); reflexivity. }
  apply (parse_status_rejects (py := ascii_repr)
           [("homework_name", VStr "hw2"); ("status", VDict [])])
    with (name := VStr "hw2") (status := VDict []); reflexivity.
Defined.

(** C9: a dict with both keys whose status is one of the three codes is
    translated, whatever the type of the name: the text holds [str] of
    the name, which for a string is the string itself. *)
Theorem parse_status_accepts_any_name {py : Interpreter}
        (d : list (string * value)) (name status : value) :
  dict_lookup d "homework_name" = Some name ->
  dict_lookup d "status" = Some status ->
  known_status status = true ->
  exists code verdict,
    status = VStr code
    /\ verdict_lookup HOMEWORK_VERDICTS code = Some verdict
    /\ parse_status (VDict d) = Ok (status_message (str name) verdict)
    /\ (forall s, name = VStr s ->
          parse_status (VDict d) = Ok (status_message s verdict)).
Proof.
  intros Hn Hs Hk.
  destruct status as [| b | z | r | code | l | d']; try discriminate Hk.
  rewrite known_status_lookup in Hk.
  destruct (verdict_lookup HOMEWORK_VERDICTS code) as [verdict|] eqn:E;
    [|discriminate].
  exists code, verdict.
  assert (H : parse_status (VDict d) = Ok (status_message (str name) verdict)).
  { rewrite parse_status_dict, Hn, Hs.
    unfold in_verdicts, verdicts_getitem, bind. rewrite E. reflexivity. }
  repeat split; try assumption.
  intros s ->. exact H.
Qed.

Lemma parse_status_accepts_any_name_witness :
  parse_status (py := ascii_repr)
    (VDict [("homework_name", VList [VInt 1; VNone; VStr "x"]);
            ("status", VStr "reviewing")])
  = Ok ("Изменился статус проверки работы " ++ dquote ++ "[1, None, 'x']"
          ++ dquote ++ ". Работа взята на проверку ревьюером.").
Proof.
  destruct (parse_status_accepts_any_name (py := ascii_repr)
              [("homework_name", VList [VInt 1; VNone; VStr "x"]);
               ("status", VStr "reviewing")]
              (VList [VInt 1; VNone; VStr "x"]) (VStr "reviewing")
              eq_refl eq_refl eq_refl)
    as (code & verdict & Hc & Hv & H & _).
  injection Hc as <-. vm_compute in Hv. injection Hv as <-. exact H.
Defined.

(** ** The loop *)

Lemma get_api_answer_ok {py : Interpreter} (timestamp : value)
      (outcome : get_outcome) (response : pyobj) :
  get_api_answer timestamp outcome = Ok response ->
  exists json,
    outcome = Response HTTPStatus_OK json
    /\ response = match json with
                  | Some v => Decoded v
                  | None => ResponseObject HTTPStatus_OK
                  end.
Proof.
  destruct outcome as [|status_code json|status_code error]; [discriminate| |].
  - unfold get_api_answer.
    destruct (Z.eqb_spec status_code HTTPStatus_OK) as [->|E]; [|discriminate].
    cbn [negb]. exists json. split; [reflexivity|].
    destruct json; congruence.
  - unfold get_api_answer.
    destruct (status_code =? HTTPStatus_OK); discriminate.
Qed.

Lemma check_response_ok (response : pyobj) (homeworks : list value) :
  check_response response = Ok homeworks ->
  exists d,
    response = Decoded (VDict d)
    /\ dict_lookup d "homeworks" = Some (VList homeworks)
    /\ dict_contains d "current_date" = true.
Proof.
  destruct response as [v|code]; [|discriminate].
  destruct v as [| b | z | r | s | l | d]; try discriminate.
  unfold check_response, dict_get, dict_contains.
  destruct (dict_lookup d "homeworks") as [hw|] eqn:Eh; [|discriminate].
  destruct (dict_lookup d "current_date") as [cd|] eqn:Ec; [|discriminate].
  cbn [negb]. destruct hw; try discriminate.
  intros H. injection H as <-. exists d. rewrite Ec.
  repeat split; assumption || reflexivity.
Qed.

(** The [try] block sends nothing when it raises; when it completes, the
    body was a dict under status 200, the value is its ["current_date"],
    and at most one message was sent. *)
Lemma try_block_inv {py : Interpreter} (timestamp : value) (c : cycle) :
  match try_block timestamp c with
  | (sent, Raise _) => sent = []
  | (sent, Ok new_timestamp) =>
      exists d,
        fetched c = Response HTTPStatus_OK (Some (VDict d))
        /\ dict_lookup d "current_date" = Some new_timestamp
        /\ (length sent <= 1)%nat
  end.
Proof.
  unfold try_block, lift.
  destruct (get_api_answer timestamp (fetched c)) as [response|e] eqn:G;
    cbn [io_bind]; [|reflexivity].
  destruct (check_response response) as [homeworks|e] eqn:C;
    cbn [io_bind app]; [|reflexivity].
  destruct (get_api_answer_ok _ _ _ G) as (json & Hf & Hr).
  destruct (check_response_ok _ _ C) as (d & Hd & _ & Hc).
  apply dict_contains_true in Hc. destruct Hc as [cd Hc].
  assert (Hj : json = Some (VDict d)).
  { rewrite Hd in Hr. destruct json; [injection Hr as ->; reflexivity | discriminate]. }
  subst json response.
  assert (R : response_get (Decoded (VDict d)) "current_date" timestamp = Ok cd)
    by (unfold response_get, dict_get; now rewrite Hc).
  destruct homeworks as [|first rest].
  - cbn [io_bind app]. rewrite R. exists d. repeat split; auto.
  - destruct (parse_status first) as [message|e] eqn:P;
      cbn [io_bind app send_message]; [|reflexivity].
    rewrite R. exists d. repeat split; auto.
Qed.

Lemma differs_true (last : option string) (message : string) :
  differs last message = true <-> last <> Some message.
Proof.
  destruct last as [m|]; simpl.
  - rewrite negb_true_iff, String.eqb_neq. split; congruence.
  - split; [discriminate | reflexivity].
Qed.

Lemma differs_false (last : option string) (message : string) :
  differs last message = false <-> last = Some message.
Proof.
  destruct last as [m|]; simpl.
  - rewrite negb_false_iff, String.eqb_eq. split; congruence.
  - split; discriminate.
Qed.

(** An iteration that fails with text [m]. *)
Lemma iteration_failing {py : Interpreter} (st : loop_state) (c : cycle) (m : string) :
  diagnostic (timestamp st) c = Some m ->
  iteration st c
  = if differs (last_error_message st) m
    then (send_message (delivers c) m,
          {| timestamp := timestamp st; last_error_message := Some m |})
    else ([], st).
Proof.
  unfold diagnostic, iteration.
  pose proof (try_block_inv (timestamp st) c) as I.
  destruct (try_block (timestamp st) c) as [sent [ts|e]]; [discriminate|].
  cbn [snd]. intros H. injection H as <-. subst sent. reflexivity.
Qed.

(** An iteration that completes. *)
Lemma iteration_completing {py : Interpreter} (st : loop_state) (c : cycle) :
  diagnostic (timestamp st) c = None ->
  exists sent new_timestamp,
    try_block (timestamp st) c = (sent, Ok new_timestamp)
    /\ iteration st c
       = (sent, {| timestamp := new_timestamp;
                   last_error_message := last_error_message st |}).
Proof.
  unfold diagnostic, iteration.
  destruct (try_block (timestamp st) c) as [sent [ts|e]]; [|discriminate].
  intros _. now exists sent, ts.
Qed.

(** [timestamp] after an iteration, by the outcome of the [try] block. *)
Lemma iteration_timestamp {py : Interpreter} (st : loop_state) (c : cycle) :
  match snd (try_block (timestamp st) c) with
  | Ok _ =>
      exists d,
        fetched c = Response 200 (Some (VDict d))
        /\ dict_lookup d "current_date" = Some (timestamp (snd (iteration st c)))
  | Raise _ => timestamp (snd (iteration st c)) = timestamp st
  end.
Proof.
  pose proof (try_block_inv (timestamp st) c) as I. unfold iteration.
  destruct (try_block (timestamp st) c) as [sent [ts|e]]; cbn [snd].
  - destruct I as (d & Hf & Hc & _). exists d. split; assumption.
  - destruct (differs (last_error_message st) (failure_message e)); reflexivity.
Qed.

(** The [try] block raises exactly when the fetch, the validation or the
    translation of the first record raises. *)
Lemma try_block_raises {py : Interpreter} (timestamp : value) (c : cycle) (e : exn) :
  snd (try_block timestamp c) = Raise e
  <-> get_api_answer timestamp (fetched c) = Raise e
      \/ (exists response,
            get_api_answer timestamp (fetched c) = Ok response
            /\ check_response response = Raise e)
      \/ (exists response first rest,
            get_api_answer timestamp (fetched c) = Ok response
            /\ check_response response = Ok (first :: rest)
            /\ parse_status first = Raise e).
Proof.
  unfold try_block, lift.
  destruct (get_api_answer timestamp (fetched c)) as [response|e1] eqn:G;
    cbn [io_bind snd].
  2:{ split.
      - intros H. left. congruence.
      - intros [H | [(r & H & _) | (r & f & t & H & _)]]; congruence. }
  destruct (check_response response) as [homeworks|e2] eqn:C;
    cbn [io_bind app snd].
  2:{ split.
      - intros H. right. left. exists response. split; congruence.
      - intros [H | [(r & H & H') | (r & f & t & H & H' & _)]]; congruence. }
  destruct (check_response_ok _ _ C) as (d & Hd & _ & _).
  assert (R : response_get response "current_date" timestamp
              = Ok (dict_get d "current_date" timestamp))
    by (rewrite Hd; reflexivity).
  destruct homeworks as [|first rest].
  - cbn [io_bind app]. rewrite R. cbn [snd]. split; [discriminate|].
    intros [H | [(r & H & H') | (r & f & t & H & H' & _)]]; congruence.
  - destruct (parse_status first) as [message|e3] eqn:P;
      cbn [io_bind app send_message].
    + rewrite R. cbn [snd]. split; [discriminate|].
      intros [H | [(r & H & H') | (r & f & t & H & H' & H'')]]; congruence.
    + cbn [snd]. split.
      * intros H. right. right. exists response, first, rest.
        repeat split; congruence.
      * intros [H | [(r & H & H') | (r & f & t & H & H' & H'')]]; congruence.
Qed.

(** C5: after an iteration whose [try] block completes, [timestamp] is
    the ["current_date"] of the payload fetched in it; after one in which
    the fetch, the validation or the translation raises, [timestamp] is
    what it was before. *)
Theorem cursor_advancement {py : Interpreter} (st : loop_state) (c : cycle) :
  (diagnostic (timestamp st) c = None ->
   exists d,
     fetched c = Response 200 (Some (VDict d))
     /\ dict_lookup d "current_date" = Some (timestamp (snd (iteration st c))))
  /\ (forall e,
        get_api_answer (timestamp st) (fetched c) = Raise e
        \/ (exists response,
              get_api_answer (timestamp st) (fetched c) = Ok response
              /\ check_response response = Raise e)
        \/ (exists response first rest,
              get_api_answer (timestamp st) (fetched c) = Ok response
              /\ check_response response = Ok (first :: rest)
              /\ parse_status first = Raise e) ->
        timestamp (snd (iteration st c)) = timestamp st).
Proof.
  pose proof (iteration_timestamp st c) as T. split.
  - unfold diagnostic. intros H.
    destruct (snd (try_block (timestamp st) c)); [exact T | discriminate].
  - intros e H. apply try_block_raises in H. now rewrite H in T.
Qed.

Lemma cursor_advancement_witness :
  (exists d,
     fetched (answers payload_C) = Response 200 (Some (VDict d))
     /\ dict_lookup d "current_date"
        = Some (timestamp (snd (iteration (py := ascii_repr) start_state
                                          (answers payload_C)))))
  /\ timestamp (snd (iteration (py := ascii_repr) start_state (answers payload_E)))
     = VInt 500
  /\ timestamp (snd (iteration (py := ascii_repr) start_state unavailable))
     = VInt 500.
Proof.
  split.
  { apply (cursor_advancement (py := ascii_repr) start_state (answers payload_C)).
    reflexivity. }
  split.
  { apply (cursor_advancement (py := ascii_repr) start_state (answers payload_E))
      with (e := UnknownHomeworkStatusError
                   "Неизвестный статус домашней работы: weird").
    right. right. eexists _, _, _. repeat split; reflexivity. }
  apply (cursor_advancement (py := ascii_repr) start_state unavailable)
    with (e := unavailable_error).
  left. reflexivity.
Defined.

(** After a failing iteration the last error message is its text. *)
Lemma iteration_failing_last {py : Interpreter} (st : loop_state) (c : cycle)
      (m : string) :
  diagnostic (timestamp st) c = Some m ->
  last_error_message (snd (iteration st c)) = Some m
  /\ timestamp (snd (iteration st c)) = timestamp st.
Proof.
  intros H. rewrite (iteration_failing st c m H).
  destruct (differs (last_error_message st) m) eqn:D; cbn [snd].
  - split; reflexivity.
  - apply differs_false in D. split; [exact D | reflexivity].
Qed.

(** What a failing iteration sends. *)
Lemma iteration_failing_sent {py : Interpreter} (st : loop_state) (c : cycle)
      (m : string) :
  diagnostic (timestamp st) c = Some m ->
  fst (iteration st c)
  = if differs (last_error_message st) m then send_message (delivers c) m else [].
Proof.
  intros H. rewrite (iteration_failing st c m H).
  destruct (differs (last_error_message st) m); reflexivity.
Qed.

(** C6, as stated, fails when the first iteration of the pair repeats
    the failure before it: after one failed fetch, two more failed
    fetches with the same text send nothing, and a failed fetch followed
    by a failure with another text sends one message. *)
Lemma repeated_failure_pair_sends_nothing :
  last_error_message after_first_failure = Some unavailable_message
  /\ diagnostic (py := ascii_repr) (timestamp after_first_failure) unavailable
     = Some unavailable_message
  /\ diagnostic (py := ascii_repr)
       (timestamp (snd (iteration (py := ascii_repr) after_first_failure unavailable)))
       unavailable
     = Some unavailable_message
  /\ (fst (iteration (py := ascii_repr) after_first_failure unavailable)
      ++ fst (iteration (py := ascii_repr)
                (snd (iteration (py := ascii_repr) after_first_failure unavailable))
                unavailable))%list
     = []
  /\ diagnostic (py := ascii_repr)
       (timestamp (snd (iteration (py := ascii_repr) after_first_failure unavailable)))
       unreachable
     <> Some unavailable_message
  /\ length
       (fst (iteration (py := ascii_repr) after_first_failure unavailable)
        ++ fst (iteration (py := ascii_repr)
                  (snd (iteration (py := ascii_repr) after_first_failure unavailable))
                  unreachable))%list
     = 1%nat.
Proof.
  repeat split; try reflexivity.
  intros H. vm_compute in H. discriminate H.
Qed.

(** C6, amended: of two consecutive failing iterations, the second sends
    a message exactly when its text differs from the first's; when the
    first text differs from the last error message held before the pair,
    equal texts give one message and different texts give two; an
    iteration that completes leaves the last error message as it was, and
    the last error message changes only in a failing iteration whose text
    differs from it. *)
Theorem dedup_consecutive_failures {py : Interpreter}
        (st : loop_state) (c1 c2 : cycle) (m1 m2 : string) :
  diagnostic (timestamp st) c1 = Some m1 ->
  diagnostic (timestamp (snd (iteration st c1))) c2 = Some m2 ->
  (map text (fst (iteration (snd (iteration st c1)) c2))
   = if String.eqb m1 m2 then [] else [m2])
  /\ (last_error_message st <> Some m1 ->
      (m1 = m2 ->
       map text (fst (iteration st c1)
                 ++ fst (iteration (snd (iteration st c1)) c2)) = [m1])
      /\ (m1 <> m2 ->
          map text (fst (iteration st c1)
                    ++ fst (iteration (snd (iteration st c1)) c2)) = [m1; m2]))
  /\ (forall st' c,
        diagnostic (timestamp st') c = None ->
        last_error_message (snd (iteration st' c)) = last_error_message st')
  /\ (forall st' c,
        last_error_message (snd (iteration st' c)) <> last_error_message st' ->
        exists m,
          diagnostic (timestamp st') c = Some m
          /\ last_error_message st' <> Some m
          /\ last_error_message (snd (iteration st' c)) = Some m).
Proof.
  intros H1 H2.
  destruct (iteration_failing_last st c1 m1 H1) as [L1 _].
  assert (S2 : map text (fst (iteration (snd (iteration st c1)) c2))
               = if String.eqb m1 m2 then [] else [m2]).
  { rewrite (iteration_failing_sent _ c2 m2 H2), L1. cbn [differs].
    destruct (String.eqb m1 m2); reflexivity. }
  split; [exact S2|]. split; [|split].
  - intros Hd. apply differs_true in Hd.
    rewrite map_app, S2, (iteration_failing_sent st c1 m1 H1), Hd.
    cbn [send_message map text app]. split.
    + intros <-. now rewrite String.eqb_refl.
    + intros Hne. apply String.eqb_neq in Hne. now rewrite Hne.
  - intros st' c H. destruct (iteration_completing st' c H) as (sent & ts & _ & ->).
    reflexivity.
  - intros st' c H.
    destruct (diagnostic (timestamp st') c) as [m|] eqn:D.
    + exists m. destruct (iteration_failing_last st' c m D) as [L _].
      split; [reflexivity|]. split; [|exact L].
      intros E. apply H. now rewrite L.
    + exfalso. apply H.
      destruct (iteration_completing st' c D) as (sent & ts & _ & ->).
      reflexivity.
Qed.

Lemma dedup_consecutive_failures_witness :
  map text (fst (iteration (py := ascii_repr) start_state unavailable)
            ++ fst (iteration (py := ascii_repr)
                      (snd (iteration (py := ascii_repr) start_state unavailable))
                      unavailable))
  = [unavailable_message]
  /\ last_error_message
       (snd (iteration (py := ascii_repr) after_first_failure (answers payload_D)))
     = last_error_message after_first_failure.
Proof.
  destruct (dedup_consecutive_failures (py := ascii_repr)
              start_state unavailable unavailable
              unavailable_message unavailable_message eq_refl eq_refl)
    as (_ & H & K & _).
  split.
  - apply H; [discriminate | reflexivity].
  - apply K. reflexivity.
Defined.

(** Different texts from the start state: two messages. *)
Example dedup_two_texts :
  map text (fst (loop (py := ascii_repr) start_state [unavailable; unreachable]))
  = [unavailable_message;
     "Сбой в работе программы: Ошибка запроса к https://practicum.yandex.ru/api/user_api/homework_statuses/ c params={'from_date': 500}.."].
Proof. reflexivity. Qed.

(** A completed cycle between two equal failures does not clear the
    last error message: the second failure is not notified. *)
Example success_does_not_clear_last_error :
  map text (fst (loop (py := ascii_repr) start_state
                      [unavailable; answers payload_D; unavailable]))
  = [unavailable_message].
Proof. reflexivity. Qed.

(** C10: a failing iteration whose text differs from the last error
    message attempts one delivery and stores the text as the last error
    message whether or not the delivery succeeded; a following failure
    with the same text attempts nothing. *)
Theorem last_error_set_whatever_the_delivery {py : Interpreter}
        (st : loop_state) (c c' : cycle) (m : string) :
  diagnostic (timestamp st) c = Some m ->
  last_error_message st <> Some m ->
  diagnostic (timestamp (snd (iteration st c))) c' = Some m ->
  fst (iteration st c) = [ {| text := m; delivered := delivers c |} ]
  /\ snd (iteration st c)
     = {| timestamp := timestamp st; last_error_message := Some m |}
  /\ fst (iteration (snd (iteration st c)) c') = [].
Proof.
  intros H Hd H'. apply differs_true in Hd.
  rewrite (iteration_failing_sent _ c' m H').
  rewrite (iteration_failing st c m H), Hd. cbn [fst snd last_error_message differs].
  rewrite String.eqb_refl. repeat split.
Qed.

Lemma last_error_set_whatever_the_delivery_witness :
  fst (iteration (py := ascii_repr) start_state
         {| fetched := Response 503 None; delivers := false |})
  = [ {| text := unavailable_message; delivered := false |} ]
  /\ snd (iteration (py := ascii_repr) start_state
            {| fetched := Response 503 None; delivers := false |})
     = {| timestamp := VInt 500; last_error_message := Some unavailable_message |}
  /\ fst (iteration (py := ascii_repr)
            (snd (iteration (py := ascii_repr) start_state
                    {| fetched := Response 503 None; delivers := false |}))
            unavailable)
     = [].
Proof.
  apply (last_error_set_whatever_the_delivery (py := ascii_repr) start_state
           {| fetched := Response 503 None; delivers := false |} unavailable
           unavailable_message).
  - reflexivity.
  - discriminate.
  - reflexivity.
Defined.

(** ** Scenarios *)

(** Scenario B: status 503. *)
Example scenario_B :
  iteration (py := ascii_repr) start_state unavailable
  = ([ {| text := unavailable_message; delivered := true |} ],
     {| timestamp := VInt 500; last_error_message := Some unavailable_message |}).
Proof. reflexivity. Qed.

(** Scenario C: one approved homework. *)
Example scenario_C :
  iteration (py := ascii_repr) start_state (answers payload_C)
  = ([ {| text := status_message "hw1"
                    "Работа проверена: ревьюеру всё понравилось. Ура!";
          delivered := true |} ],
     {| timestamp := VInt 1000; last_error_message := None |}).
Proof. reflexivity. Qed.

(** Scenario D: no homework. *)
Example scenario_D :
  iteration (py := ascii_repr) start_state (answers payload_D)
  = ([], {| timestamp := VInt 2000; last_error_message := None |}).
Proof. reflexivity. Qed.

(** Scenario E: unknown status. *)
Example scenario_E :
  iteration (py := ascii_repr) start_state (answers payload_E)
  = ([ {| text := "Сбой в работе программы: Неизвестный статус домашней работы: weird.";
          delivered := true |} ],
     {| timestamp := VInt 500;
        last_error_message :=
          Some "Сбой в работе программы: Неизвестный статус домашней работы: weird." |}).
Proof. reflexivity. Qed.

(** An exception of [response.json()] other than [json.JSONDecodeError]
    is reported with its own text. *)
Example json_raises_iteration :
  iteration (py := ascii_repr) start_state
    {| fetched := ResponseJsonRaises 200
                    (ValueError "Exceeds the limit (4300 digits) for integer string conversion");
       delivers := true |}
  = ([ {| text := "Сбой в работе программы: Exceeds the limit (4300 digits) for integer string conversion.";
          delivered := true |} ],
     {| timestamp := VInt 500;
        last_error_message :=
          Some "Сбой в работе программы: Exceeds the limit (4300 digits) for integer string conversion." |}).
Proof. reflexivity. Qed.

(** A body that is not JSON is reported as a response that is no dict. *)
Example undecodable_body_iteration :
  iteration (py := ascii_repr) start_state
    {| fetched := Response 200 None; delivers := true |}
  = ([ {| text := "Сбой в работе программы: Ответ не является словарем..";
          delivered := true |} ],
     {| timestamp := VInt 500;
        last_error_message :=
          Some "Сбой в работе программы: Ответ не является словарем.." |}).
Proof. reflexivity. Qed.

(** Every iteration attempts at most one delivery. *)
Lemma iteration_sends_at_most_one {py : Interpreter} (st : loop_state) (c : cycle) :
  (length (fst (iteration st c)) <= 1)%nat.
Proof.
  pose proof (try_block_inv (timestamp st) c) as I. unfold iteration.
  destruct (try_block (timestamp st) c) as [sent [ts|e]].
  - destruct I as (d & _ & _ & I). exact I.
  - subst sent.
    destruct (differs (last_error_message st) (failure_message e)); simpl; lia.
Qed.

(** * Further properties of the code *)

(** ** check_tokens and the start of main *)

Lemma missing_tokens_by_value (cfg : config) :
  missing_tokens cfg
  = ((if truthy (PRACTICUM_TOKEN cfg) then [] else ["PRACTICUM_TOKEN"])
     ++ (if truthy (TELEGRAM_TOKEN cfg) then [] else ["TELEGRAM_TOKEN"])
     ++ (if truthy (TELEGRAM_CHAT_ID cfg) then [] else ["TELEGRAM_CHAT_ID"]))%list.
Proof.
  unfold missing_tokens, tokens. cbn [filter].
  change (globals cfg "PRACTICUM_TOKEN") with (PRACTICUM_TOKEN cfg).
  change (globals cfg "TELEGRAM_TOKEN") with (TELEGRAM_TOKEN cfg).
  change (globals cfg "TELEGRAM_CHAT_ID") with (TELEGRAM_CHAT_ID cfg).
  destruct (truthy (PRACTICUM_TOKEN cfg)), (truthy (TELEGRAM_TOKEN cfg)),
    (truthy (TELEGRAM_CHAT_ID cfg)); reflexivity.
Qed.

(** X1: [check_tokens] returns without raising exactly when the three
    values are non-empty strings. *)
Theorem check_tokens_passes_iff (cfg : config) :
  check_tokens cfg = Ok tt
  <-> present (PRACTICUM_TOKEN cfg) /\ present (TELEGRAM_TOKEN cfg)
      /\ present (TELEGRAM_CHAT_ID cfg).
Proof.
  unfold check_tokens, present. rewrite missing_tokens_by_value.
  destruct (truthy (PRACTICUM_TOKEN cfg)), (truthy (TELEGRAM_TOKEN cfg)),
    (truthy (TELEGRAM_CHAT_ID cfg)); cbn [app]; split;
    try discriminate; try (intros (A & B & C); discriminate);
    try (intros _; repeat split); reflexivity.
Qed.

Lemma loop_length {py : Interpreter} (st : loop_state) (cycles : list cycle) :
  (length (fst (loop st cycles)) <= length cycles)%nat.
Proof.
  revert st. induction cycles as [|c rest IH]; intros st; cbn [loop].
  - simpl. lia.
  - pose proof (iteration_sends_at_most_one st c) as H1.
    destruct (iteration st c) as [sent st1]. specialize (IH st1).
    destruct (loop st1 rest) as [sent' st2]. cbn [fst] in *.
    rewrite length_app. simpl. lia.
Qed.

(** X2: with the three values present, [main] ends with the exception
    of [telebot.TeleBot] and attempts no delivery when that constructor
    raises; when it returns, [main] first attempts to deliver [TEXT],
    whether or not that delivery succeeds, then runs the loop from the
    start time with no last error message; it ends normally, and it
    attempts at most one delivery per iteration after the greeting. *)
Theorem main_greets_then_polls {py : Interpreter} (cfg : config) (now : Z)
        (greeting : bool) (cycles : list cycle) :
  present (PRACTICUM_TOKEN cfg) ->
  present (TELEGRAM_TOKEN cfg) ->
  present (TELEGRAM_CHAT_ID cfg) ->
  let start := {| timestamp := VInt now; last_error_message := None |} in
  main cfg (Ok tt) now greeting cycles
  = (({| text := "Hi, practicum"; delivered := greeting |}
        :: fst (loop start cycles)),
     Ok (snd (loop start cycles)))
  /\ (length (fst (main cfg (Ok tt) now greeting cycles)) <= 1 + length cycles)%nat
  /\ (forall e, main cfg (Raise e) now greeting cycles = ([], Raise e)).
Proof.
  intros H1 H2 H3 start.
  assert (C : check_tokens cfg = Ok tt) by (apply check_tokens_passes_iff; auto).
  assert (M : main cfg (Ok tt) now greeting cycles
              = (({| text := "Hi, practicum"; delivered := greeting |}
                    :: fst (loop start cycles)),
                 Ok (snd (loop start cycles)))).
  { unfold main, lift. rewrite C. cbn [io_bind]. fold start.
    destruct (loop start cycles) as [sent st']. reflexivity. }
  split; [exact M|]. split.
  - rewrite M. cbn [fst length].
    pose proof (loop_length start cycles). lia.
  - intros e. unfold main, lift. rewrite C. reflexivity.
Qed.

Lemma main_greets_then_polls_witness :
  main (py := ascii_repr) config_full (Ok tt) 500 false
       [unavailable; answers payload_C]
  = ([ {| text := "Hi, practicum"; delivered := false |};
       {| text := unavailable_message; delivered := true |};
       {| text := status_message "hw1"
                    "Работа проверена: ревьюеру всё понравилось. Ура!";
          delivered := true |} ],
     Ok {| timestamp := VInt 1000;
           last_error_message := Some unavailable_message |})
  /\ main (py := ascii_repr) config_full
          (Raise (ValueError "Token must contain a colon")) 500 false
          [unavailable; answers payload_C]
     = ([], Raise (ValueError "Token must contain a colon")).
Proof.
  destruct (main_greets_then_polls (py := ascii_repr) config_full 500 false
              [unavailable; answers payload_C] eq_refl eq_refl eq_refl)
    as (H & _ & K).
  split; [exact H | apply K].
Defined.

(** ** get_api_answer, parse_status: what can come out *)

(** X3: [get_api_answer] returns the decoded body [v] exactly when the
    status is 200 and the body decodes to [v]; the value is handed over
    as it is, whatever its shape. *)
Theorem get_api_answer_decoded_iff {py : Interpreter} (timestamp v : value)
        (outcome : get_outcome) :
  get_api_answer timestamp outcome = Ok (Decoded v)
  <-> outcome = Response 200 (Some v).
Proof.
  split.
  - intros H. destruct (get_api_answer_ok _ _ _ H) as (json & -> & E).
    destruct json as [w|]; [|discriminate]. now injection E as ->.
  - intros ->. reflexivity.
Qed.




Lemma parse_status_raise_inv {py : Interpreter} (homework : value) (e : exn) :
  parse_status homework = Raise e ->
  e = InvalidAPIResponseError missing_keys_message
  \/ (exists m, e = UnknownHomeworkStatusError m)
  \/ (exists m, e = TypeError m).
Proof.
  destruct homework as [| b | z | r | s | l | d].
  1-4: intros H; injection H as <-; right; right; eauto.
  - unfold parse_status, contains, bind.
    destruct (str_contains s "homework_name");
      [destruct (str_contains s "status")|]; cbn [negb orb getitem];
      intros H; injection H as <-; [right; right; eauto | now left | now left].
  - unfold parse_status, contains, bind.
    match goal with |- context [existsb ?f l] => destruct (existsb f l) end;
      [match goal with |- context [existsb ?f l] => destruct (existsb f l) end|];
      cbn [negb orb getitem];
      intros H; injection H as <-; [right; right; eauto | now left | now left].
  - rewrite parse_status_dict.
    destruct (dict_lookup d "homework_name") as [name|];
      [|intros H; injection H as <-; now left].
    destruct (dict_lookup d "status") as [status|];
      [|intros H; injection H as <-; now left].
    destruct status as [| b | z | r | s | l | d'];
      unfold in_verdicts, verdicts_getitem, bind; cbn [negb];
      try (intros H; injection H as <-; right; eauto; fail).
    destruct (verdict_lookup HOMEWORK_VERDICTS s); cbn [negb].
    + discriminate.
    + intros H. injection H as <-. right. left. eauto.
Qed.

(** X5: [parse_status] raises [InvalidAPIResponseError],
    [UnknownHomeworkStatusError] or [TypeError] and nothing else: once
    the key test has passed the subscripts never raise [KeyError], and
    the lookup of the verdict follows a successful membership test.  On
    a dict, [TypeError] comes only from a status that is a list or a
    dict. *)
Theorem parse_status_raises_only {py : Interpreter} (homework : value) (e : exn) :
  parse_status homework = Raise e ->
  (e = InvalidAPIResponseError missing_keys_message
   \/ (exists m, e = UnknownHomeworkStatusError m)
   \/ (exists m, e = TypeError m))
  /\ (forall d m, homework = VDict d -> e = TypeError m ->
        exists status,
          dict_lookup d "status" = Some status /\ hashable status = false).
Proof.
  intros H. split; [exact (parse_status_raise_inv _ _ H)|].
  intros d m -> ->. rewrite parse_status_dict in H.
  destruct (dict_lookup d "homework_name") as [name|]; [|discriminate].
  destruct (dict_lookup d "status") as [status|]; [|discriminate].
  exists status. split; [reflexivity|].
  destruct (hashable status) eqn:Hh; [|reflexivity].
  rewrite (in_verdicts_hashable _ Hh) in H. unfold bind in H.
  destruct status as [| b | z | r | s | l | d']; try discriminate.
  rewrite known_status_lookup in H. unfold verdicts_getitem in H.
  destruct (verdict_lookup HOMEWORK_VERDICTS s); discriminate.
Qed.

Lemma parse_status_raises_only_witness :
  TypeError "string indices must be integers, not 'str'"
  = InvalidAPIResponseError missing_keys_message
  \/ (exists m, TypeError "string indices must be integers, not 'str'"
                = UnknownHomeworkStatusError m)
  \/ (exists m, TypeError "string indices must be integers, not 'str'"
                = TypeError m).
Proof.
  apply (parse_status_raises_only (py := ascii_repr)
           (VStr "homework_name and status")).
  reflexivity.
Defined.


(** X6: a value that is no dict is never translated and never reported
    as an unknown status: [parse_status] raises
    [InvalidAPIResponseError] (a string or a list lacking one of the two
    words) or [TypeError]. *)
Theorem parse_status_non_dict {py : Interpreter} (homework : value) :
  (forall d, homework <> VDict d) ->
  exists e,
    parse_status homework = Raise e
    /\ (e = InvalidAPIResponseError missing_keys_message
        \/ exists m, e = TypeError m).
Proof.
  intros Hnd.
  destruct homework as [| b | z | r | s | l | d].
  1-4: eexists; split; [reflexivity | right; eauto].
  - unfold parse_status, contains, bind.
    destruct (str_contains s "homework_name");
      [destruct (str_contains s "status")|]; cbn [negb orb getitem];
      eexists; (split; [reflexivity | eauto]).
  - unfold parse_status, contains, bind.
    match goal with |- context [existsb ?f l] => destruct (existsb f l) end;
      [match goal with |- context [existsb ?f l] => destruct (existsb f l) end|];
      cbn [negb orb getitem];
      eexists; (split; [reflexivity | eauto]).
  - exfalso. now apply (Hnd d).
Qed.

Lemma parse_status_non_dict_witness :
  exists e,
    parse_status (py := ascii_repr) (VStr "status of homework_name") = Raise e
    /\ (e = InvalidAPIResponseError missing_keys_message
        \/ exists m, e = TypeError m).
Proof.
  apply (parse_status_non_dict (py := ascii_repr) (VStr "status of homework_name")).
  intros d. discriminate.
Defined.

(** ** One iteration *)

Lemma check_response_valid (d : list (string * value)) (homeworks : list value)
      (cd : value) :
  dict_lookup d "homeworks" = Some (VList homeworks) ->
  dict_lookup d "current_date" = Some cd ->
  check_response (Decoded (VDict d)) = Ok homeworks.
Proof.
  intros Hh Hc. unfold check_response, dict_contains, dict_get.
  now rewrite Hh, Hc.
Qed.

(** X7: when the payload holds a non-empty list of homeworks and its
    first record translates, the iteration attempts exactly one
    delivery, of that record's text; the records after the first are not
    looked at, the status text is sent whatever was sent before, and the
    state takes the payload's ["current_date"], of whatever type, and
    keeps the last error message. *)
Theorem iteration_notifies_first_record {py : Interpreter}
        (st : loop_state) (c : cycle) (d : list (string * value))
        (first : value) (rest : list value) (cd : value) (message : string) :
  fetched c = Response 200 (Some (VDict d)) ->
  dict_lookup d "homeworks" = Some (VList (first :: rest)) ->
  dict_lookup d "current_date" = Some cd ->
  parse_status first = Ok message ->
  iteration st c
  = ([ {| text := message; delivered := delivers c |} ],
     {| timestamp := cd; last_error_message := last_error_message st |}).
Proof.
  intros Hf Hh Hc Hp. unfold iteration, try_block, lift.
  rewrite Hf. change (get_api_answer (timestamp st) (Response 200 (Some (VDict d))))
    with (Ok (A := pyobj) (Decoded (VDict d))).
  cbn [io_bind]. rewrite (check_response_valid d _ cd Hh Hc).
  cbn [io_bind app]. rewrite Hp. cbn [io_bind app send_message].
  unfold response_get, dict_get. rewrite Hc. reflexivity.
Qed.

Lemma iteration_notifies_first_record_witness :
  iteration (py := ascii_repr) after_first_failure (answers payload_mixed)
  = ([ {| text := status_message "hw1"
                    "Работа проверена: ревьюеру всё понравилось. Ура!";
          delivered := true |} ],
     {| timestamp := VStr "tomorrow";
        last_error_message := Some unavailable_message |}).
Proof.
  apply (iteration_notifies_first_record (py := ascii_repr) after_first_failure
           (answers payload_mixed)
           [("homeworks", VList [hw1_record; VInt 3]);
            ("current_date", VStr "tomorrow")]
           hw1_record [VInt 3] (VStr "tomorrow")); reflexivity.
Defined.

(** X8: when the payload holds an empty list of homeworks, the
    iteration attempts no delivery and still moves [timestamp] to the
    payload's ["current_date"]. *)
Theorem iteration_without_homeworks {py : Interpreter}
        (st : loop_state) (c : cycle) (d : list (string * value)) (cd : value) :
  fetched c = Response 200 (Some (VDict d)) ->
  dict_lookup d "homeworks" = Some (VList []) ->
  dict_lookup d "current_date" = Some cd ->
  iteration st c
  = ([], {| timestamp := cd; last_error_message := last_error_message st |}).
Proof.
  intros Hf Hh Hc. unfold iteration, try_block, lift.
  rewrite Hf. change (get_api_answer (timestamp st) (Response 200 (Some (VDict d))))
    with (Ok (A := pyobj) (Decoded (VDict d))).
  cbn [io_bind]. rewrite (check_response_valid d _ cd Hh Hc).
  cbn [io_bind app]. unfold response_get, dict_get. rewrite Hc. reflexivity.
Qed.

Lemma iteration_without_homeworks_witness :
  iteration (py := ascii_repr) after_first_failure (answers payload_D)
  = ([], {| timestamp := VInt 2000;
            last_error_message := Some unavailable_message |}).
Proof.
  apply (iteration_without_homeworks (py := ascii_repr) after_first_failure
           (answers payload_D)
           [("homeworks", VList []); ("current_date", VInt 2000)] (VInt 2000));
    reflexivity.
Defined.



Lemma try_block_delivery {py : Interpreter} (timestamp : value) (c c' : cycle) :
  fetched c = fetched c' ->
  snd (try_block timestamp c) = snd (try_block timestamp c')
  /\ map text (fst (try_block timestamp c)) = map text (fst (try_block timestamp c')).
Proof.
  intros E. unfold try_block, lift. rewrite <- E.
  destruct (get_api_answer timestamp (fetched c)) as [response|e];
    cbn [io_bind]; [|now split].
  destruct (check_response response) as [[|first rest]|e];
    cbn [io_bind app]; [| |now split].
  - destruct (response_get response "current_date" timestamp); now split.
  - destruct (parse_status first) as [message|e];
      cbn [io_bind app send_message]; [|now split].
    destruct (response_get response "current_date" timestamp); now split.
Qed.

(** X10: the outcome of the deliveries has no influence on the loop:
    two iterations that differ only in whether [bot.send_message]
    succeeds attempt the same texts and end in the same state. *)
Theorem iteration_ignores_delivery {py : Interpreter}
        (st : loop_state) (c c' : cycle) :
  fetched c = fetched c' ->
  snd (iteration st c) = snd (iteration st c')
  /\ map text (fst (iteration st c)) = map text (fst (iteration st c')).
Proof.
  intros E. destruct (try_block_delivery (timestamp st) c c' E) as [R S].
  unfold iteration.
  destruct (try_block (timestamp st) c) as [sent r],
           (try_block (timestamp st) c') as [sent' r'].
  cbn [fst snd] in R, S. subst r'.
  destruct r as [ts|e]; cbn [fst snd]; [now split|].
  destruct (differs (last_error_message st) (failure_message e));
    cbn [fst snd]; [|now split].
  split; [reflexivity|]. rewrite !map_app, S. reflexivity.
Qed.

Lemma iteration_ignores_delivery_witness :
  snd (iteration (py := ascii_repr) start_state (answers payload_C))
  = snd (iteration (py := ascii_repr) start_state
           {| fetched := Response 200 (Some payload_C); delivers := false |})
  /\ map text (fst (iteration (py := ascii_repr) start_state (answers payload_C)))
     = map text (fst (iteration (py := ascii_repr) start_state
                        {| fetched := Response 200 (Some payload_C);
                           delivers := false |})).
Proof.
  apply (iteration_ignores_delivery (py := ascii_repr)). reflexivity.
Defined.

(** ** The loop over several iterations *)

Lemma loop_cons {py : Interpreter} (st : loop_state) (c : cycle)
      (rest : list cycle) :
  loop st (c :: rest)
  = ((fst (iteration st c) ++ fst (loop (snd (iteration st c)) rest))%list,
     snd (loop (snd (iteration st c)) rest)).
Proof.
  cbn [loop]. destruct (iteration st c) as [sent st1]. cbn [fst snd].
  destruct (loop st1 rest) as [sent' st2]. reflexivity.
Qed.

Lemma loop_suppressed {py : Interpreter} (st : loop_state) (cycles : list cycle)
      (m : string) :
  last_error_message st = Some m ->
  Forall (fun c => diagnostic (timestamp st) c = Some m) cycles ->
  loop st cycles = ([], st).
Proof.
  intros L F. induction F as [|c rest Hc _ IH]; [reflexivity|].
  rewrite loop_cons, (iteration_failing st c m Hc).
  assert (D : differs (last_error_message st) m = false)
    by now apply differs_false.
  rewrite D. cbn [fst snd]. now rewrite IH.
Qed.

(** X11: a run of iterations that all fail with the same text, which
    is not the last error message, makes one delivery attempt, in the
    first of them, however long the run; the state afterwards holds the
    old [timestamp] and that text. *)
Theorem repeated_failure_notified_once {py : Interpreter}
        (st : loop_state) (c : cycle) (rest : list cycle) (m : string) :
  Forall (fun c' => diagnostic (timestamp st) c' = Some m) (c :: rest) ->
  last_error_message st <> Some m ->
  loop st (c :: rest)
  = ([ {| text := m; delivered := delivers c |} ],
     {| timestamp := timestamp st; last_error_message := Some m |}).
Proof.
  intros F Hd. inversion F as [|c0 rest0 Hc Hrest]; subst.
  apply differs_true in Hd.
  rewrite loop_cons, (iteration_failing st c m Hc), Hd. cbn [fst snd].
  rewrite (loop_suppressed _ rest m); [reflexivity | reflexivity | exact Hrest].
Qed.

Lemma repeated_failure_notified_once_witness :
  loop (py := ascii_repr) start_state
       [unavailable; unavailable; unavailable; unavailable]
  = ([ {| text := unavailable_message; delivered := true |} ],
     {| timestamp := VInt 500; last_error_message := Some unavailable_message |}).
Proof.
  apply (repeated_failure_notified_once (py := ascii_repr) start_state
           unavailable [unavailable; unavailable; unavailable]
           unavailable_message).
  - repeat constructor.
  - discriminate.
Defined.

Lemma last_cons_default {A : Type} (a : A) (l : list A) (d d' : A) :
  last (a :: l) d = last (a :: l) d'.
Proof.
  revert a. induction l as [|b l IH]; intros a; [reflexivity|].
  change (last (a :: b :: l) d) with (last (b :: l) d).
  change (last (a :: b :: l) d') with (last (b :: l) d').
  apply IH.
Qed.

(** X12: over a run of failing iterations with texts [texts], the texts
    attempted are those that differ from the text of the failure just
    before (from the last error message, for the first); a text comes
    again after a different one was sent in between.  [timestamp] stays
    where it was and the last error message ends as the last text. *)
Theorem failing_run_notifications {py : Interpreter}
        (st : loop_state) (cycles : list cycle) (texts : list string) :
  Forall2 (fun c m => diagnostic (timestamp st) c = Some m) cycles texts ->
  map text (fst (loop st cycles)) = notified (last_error_message st) texts
  /\ timestamp (snd (loop st cycles)) = timestamp st
  /\ last_error_message (snd (loop st cycles))
     = last (map Some texts) (last_error_message st).
Proof.
  revert st cycles.
  induction texts as [|m texts IH]; intros st cycles F;
    inversion F as [|c ? cs ? Hc Hcs]; subst.
  - repeat split.
  - rewrite loop_cons. cbn [fst snd].
    destruct (iteration_failing_last st c m Hc) as [L T].
    assert (F' : Forall2 (fun c' m' =>
                            diagnostic (timestamp (snd (iteration st c))) c' = Some m')
                         cs texts) by (rewrite T; exact Hcs).
    destruct (IH _ _ F') as (S1 & S2 & S3).
    rewrite map_app, S1, S2, S3, L, T, (iteration_failing_sent st c m Hc).
    split; [|split; [reflexivity|]].
    + cbn [notified]. destruct (differs (last_error_message st) m); reflexivity.
    + cbn [map]. destruct texts as [|m' texts']; [reflexivity|].
      cbn [map]. change (last (Some m :: Some m' :: map Some texts')
                              (last_error_message st))
        with (last (Some m' :: map Some texts') (last_error_message st)).
      apply last_cons_default.
Qed.

Lemma failing_run_notifications_witness :
  map text (fst (loop (py := ascii_repr) start_state
                      [unavailable; unavailable;
                       answers payload_E; unavailable]))
  = [unavailable_message;
     "Сбой в работе программы: Неизвестный статус домашней работы: weird.";
     unavailable_message].
Proof.
  destruct (failing_run_notifications (py := ascii_repr) start_state
              [unavailable; unavailable; answers payload_E; unavailable]
              [unavailable_message; unavailable_message;
               "Сбой в работе программы: Неизвестный статус домашней работы: weird.";
               unavailable_message])
    as [H _].
  - repeat constructor.
  - exact H.
Defined.

Lemma iteration_keeps_last_error {py : Interpreter} (st : loop_state) (c : cycle) :
  last_error_message st <> None ->
  last_error_message (snd (iteration st c)) <> None.
Proof.
  intros H. destruct (diagnostic (timestamp st) c) as [m|] eqn:D.
  - destruct (iteration_failing_last st c m D) as [L _]. rewrite L. discriminate.
  - destruct (iteration_completing st c D) as (sent & ts & _ & ->). exact H.
Qed.

(** X13: once a failure has been recorded, no sequence of iterations,
    successful or not, brings the last error message back to [None]. *)
Theorem last_error_message_never_cleared {py : Interpreter}
        (st : loop_state) (cycles : list cycle) :
  last_error_message st <> None ->
  last_error_message (snd (loop st cycles)) <> None.
Proof.
  revert st. induction cycles as [|c rest IH]; intros st H; [exact H|].
  rewrite loop_cons. cbn [snd]. apply IH. now apply iteration_keeps_last_error.
Qed.

Lemma last_error_message_never_cleared_witness :
  last_error_message
    (snd (loop (py := ascii_repr) after_first_failure
               [answers payload_C; answers payload_D]))
  <> None.
Proof.
  apply (last_error_message_never_cleared (py := ascii_repr)). discriminate.
Defined.

(** X14: whatever the iterations, [timestamp] after the loop is the
    one it started with or the ["current_date"] of a payload fetched
    with status 200 in one of them. *)
Theorem timestamp_provenance {py : Interpreter}
        (st : loop_state) (cycles : list cycle) :
  timestamp (snd (loop st cycles)) = timestamp st
  \/ exists c d,
       In c cycles
       /\ fetched c = Response 200 (Some (VDict d))
       /\ dict_lookup d "current_date" = Some (timestamp (snd (loop st cycles))).
Proof.
  revert st. induction cycles as [|c rest IH]; intros st; [now left|].
  rewrite loop_cons. cbn [snd].
  destruct (IH (snd (iteration st c))) as [E | (c' & d & Hin & Hf & Hd)].
  - rewrite E. pose proof (iteration_timestamp st c) as T.
    destruct (snd (try_block (timestamp st) c)).
    + destruct T as (d & Hf & Hd). right. exists c, d.
      repeat split; [now left | exact Hf | exact Hd].
    + now left.
  - right. exists c', d. repeat split; [now right | exact Hf | exact Hd].
Qed.

(** ** check_response and the exception hierarchy *)

(** X15: an exception of [check_response] belongs to the
    [PracticumAPIError] hierarchy exactly when the response is a dict
    lacking ["homeworks"] or ["current_date"]; the two type checks raise
    the built-in [TypeError], which a handler for [PracticumAPIError]
    would not catch. *)
Theorem check_response_error_class (response : pyobj) (e : exn) :
  check_response response = Raise e ->
  (is_PracticumAPIError e = true
   <-> exists d,
         response = Decoded (VDict d)
         /\ (dict_contains d "homeworks" = false
             \/ dict_contains d "current_date" = false))
  /\ (is_PracticumAPIError e = false <-> exists m, e = TypeError m).
Proof.
  intros H.
  assert (K : (exists m, e = TypeError m
                         /\ forall d, response = Decoded (VDict d) ->
                                      dict_contains d "homeworks" = true
                                      /\ dict_contains d "current_date" = true)
              \/ (exists m d, e = InvalidAPIResponseError m
                              /\ response = Decoded (VDict d)
                              /\ (dict_contains d "homeworks" = false
                                  \/ dict_contains d "current_date" = false))).
  { destruct response as [v|code];
      [|injection H as <-; left; eexists; split; [reflexivity | discriminate]].
    destruct v as [| b | z | r | s | l | d];
      try (injection H as <-; left; eexists; split;
           [reflexivity | discriminate]).
    unfold check_response in H.
    destruct (dict_contains d "homeworks") eqn:E1; cbn [negb] in H;
      [|injection H as <-; right; eexists _, d; repeat split; now left].
    destruct (dict_contains d "current_date") eqn:E2; cbn [negb] in H;
      [|injection H as <-; right; eexists _, d; repeat split; now right].
    left. destruct (dict_get d "homeworks" VNone); try discriminate H;
      injection H as <-; eexists; (split; [reflexivity|]);
      intros dd E; injection E as <-; now split. }
  destruct K as [(m & -> & Hd) | (m & d & -> & -> & Hk)]; cbn [is_PracticumAPIError].
  - split; split.
    + discriminate.
    + intros (d & -> & [E | E]); destruct (Hd d eq_refl) as [A B]; congruence.
    + eauto.
    + reflexivity.
  - split; split.
    + intros _. now exists d.
    + reflexivity.
    + discriminate.
    + intros [m' E]. discriminate E.
Qed.

Lemma check_response_error_class_witness :
  (is_PracticumAPIError (InvalidAPIResponseError (missing_key_message "current_date"))
   = true
   <-> exists d,
         Decoded (VDict [("homeworks", VList [])]) = Decoded (VDict d)
         /\ (dict_contains d "homeworks" = false
             \/ dict_contains d "current_date" = false))
  /\ (is_PracticumAPIError (InvalidAPIResponseError (missing_key_message "current_date"))
      = false
      <-> exists m,
            InvalidAPIResponseError (missing_key_message "current_date")
            = TypeError m).
Proof.
  apply (check_response_error_class (Decoded (VDict [("homeworks", VList [])]))).
  reflexivity.
Defined.
